(** * Clean Slate participant API (server.js): a shallow embedding

    The Express application of [server.js] keeps two module-level
    variables, the array [participants] and the number
    [participantIdCounter], and registers ten routes over them.  This
    file models the JSON values the handlers read, the handlers
    themselves as state-passing functions over the two variables, and
    the router's first-match dispatch in registration order.

    Boundaries of the model.
    - A field value is null, a boolean, an integral Number, a string or
      an array of such values.  Nested objects as field values and
      non-integral Numbers are not represented.  Numbers are [Z]: the
      integers a double holds exactly; [parseInt] rounds what it reads
      to the nearest such Number.  Overflow to Infinity is not
      represented, and a Number is printed with all its digits, which
      is JavaScript's text below 10^21.
    - Strings are sequences of 8-bit characters, the UTF-8 bytes of the
      text; [toLowerCase] is modelled on ASCII.
    - The clock ([new Date()], [Date.now()]) and [process.uptime()] are
      inputs of every request ([env]).
    - An object is a finite map from property names to values; the
      order of its properties, which only the JSON text shows, is not
      kept.
    - Body parsing, URL decoding and the static file middleware happen
      before the routes and are not modelled: a request carries its path
      segments, its query map (string values) and its parsed body.  A
      route matches a path by the exact spelling of its segments; the
      router's tolerance of letter case and of one trailing slash is
      not modelled. *)

From Stdlib Require Import ZArith QArith Qround Lqa.
From Stdlib Require Import Ascii String DecimalString DecimalPos.
From stdpp Require Import base option list strings gmap.

Local Open Scope string_scope.
Local Open Scope Z_scope.

(** ** JSON values and objects *)

#[local] Set Warnings "-register-all".

Inductive value : Type :=
| JNull
| JBool (b : bool)
| JNum (n : Z)
| JStr (s : string)
| JArr (l : list value).

(** A property read that finds nothing yields [undefined]: reads have
    type [option value], with [None] for [undefined]. *)
Abbreviation object := (gmap string value).

Definition get (p : object) (k : string) : option value := p !! k.

(** Truthiness (ToBoolean). *)
Definition truthy (v : option value) : bool :=
  match v with
  | None | Some JNull => false
  | Some (JBool b) => b
  | Some (JNum n) => negb (Z.eqb n 0)
  | Some (JStr s) => negb (String.eqb s "")
  | Some (JArr _) => true
  end.

(** [a ++ sep ++ b ++ sep ++ ...], the separator only between items. *)
Fixpoint join_strings (sep : string) (l : list string) : string :=
  match l with
  | [] => ""
  | [x] => x
  | x :: rest => x ++ sep ++ join_strings sep rest
  end.

Definition number_to_string (n : Z) : string :=
  NilZero.string_of_int (Z.to_int n).

(** ToString on values; [Array.prototype.join] renders a null element
    as the empty string. *)
Fixpoint to_string (v : value) : string :=
  match v with
  | JNull => "null"
  | JBool true => "true"
  | JBool false => "false"
  | JNum n => number_to_string n
  | JStr s => s
  | JArr l =>
      join_strings ","
        (map (fun e => match e with JNull => "" | _ => to_string e end) l)
  end.

Definition array_join (sep : string) (l : list value) : string :=
  join_strings sep
    (map (fun e => match e with JNull => "" | _ => to_string e end) l).

(** Template-literal interpolation and property-key conversion of a
    read: [undefined] becomes the text "undefined". *)
Definition render (v : option value) : string :=
  match v with
  | None => "undefined"
  | Some x => to_string x
  end.

(** ** String primitives the handlers call *)

(** [s.split(sep)] for a one-character separator: the pieces between
    the separators, never an empty list. *)
Fixpoint str_split (sep : ascii) (s : string) : list string :=
  match s with
  | EmptyString => [""]
  | String c rest =>
      if Ascii.eqb c sep then "" :: str_split sep rest
      else match str_split sep rest with
           | piece :: pieces => String c piece :: pieces
           | [] => [String c ""]
           end
  end.

(** [hay.includes(needle)]. *)
Fixpoint str_includes (hay needle : string) : bool :=
  String.prefix needle hay
  || match hay with
     | EmptyString => false
     | String _ rest => str_includes rest needle
     end.

Definition lower_char (c : ascii) : ascii :=
  let n := nat_of_ascii c in
  if (Nat.leb 65 n && Nat.leb n 90)%bool then ascii_of_nat (n + 32) else c.

Fixpoint toLowerCase (s : string) : string :=
  match s with
  | EmptyString => EmptyString
  | String c rest => String (lower_char c) (toLowerCase rest)
  end.

(** *** parseInt without a radix argument

    Leading white space is skipped, one sign is read, a [0x]/[0X]
    prefix selects radix 16, and the longest run of digits of the radix
    is read as an integer ([mathInt]); the result is the Number nearest
    to that integer.  [None] stands for NaN. *)

Definition is_white_space (c : ascii) : bool :=
  let n := nat_of_ascii c in
  (Nat.leb 9 n && Nat.leb n 13)%bool || Nat.eqb n 32.

(** The white space beyond ASCII, in its UTF-8 bytes: U+00A0; and
    U+FEFF, U+1680, U+2000 to U+200A, U+2028, U+2029, U+202F, U+205F,
    U+3000. *)
Definition two_byte_space (c1 c2 : ascii) : bool :=
  Nat.eqb (nat_of_ascii c1) 194 && Nat.eqb (nat_of_ascii c2) 160.

Definition three_byte_space (c1 c2 c3 : ascii) : bool :=
  let '(n1, n2, n3) := (nat_of_ascii c1, nat_of_ascii c2, nat_of_ascii c3) in
  (Nat.eqb n1 239 && Nat.eqb n2 187 && Nat.eqb n3 191)
  || (Nat.eqb n1 225 && Nat.eqb n2 154 && Nat.eqb n3 128)
  || (Nat.eqb n1 226 && Nat.eqb n2 128
      && ((Nat.leb 128 n3 && Nat.leb n3 138)
          || Nat.eqb n3 168 || Nat.eqb n3 169 || Nat.eqb n3 175))
  || (Nat.eqb n1 226 && Nat.eqb n2 129 && Nat.eqb n3 159)
  || (Nat.eqb n1 227 && Nat.eqb n2 128 && Nat.eqb n3 128).

Fixpoint skip_white_space (s : string) : string :=
  match s with
  | EmptyString => s
  | String c1 r1 =>
      if is_white_space c1 then skip_white_space r1
      else match r1 with
           | EmptyString => s
           | String c2 r2 =>
               if two_byte_space c1 c2 then skip_white_space r2
               else match r2 with
                    | EmptyString => s
                    | String c3 r3 =>
                        if three_byte_space c1 c2 c3
                        then skip_white_space r3 else s
                    end
           end
  end.

Definition digit_value (c : ascii) : option Z :=
  let n := nat_of_ascii c in
  if (Nat.leb 48 n && Nat.leb n 57)%bool then Some (Z.of_nat (n - 48))
  else if (Nat.leb 97 n && Nat.leb n 122)%bool then Some (Z.of_nat (n - 87))
  else if (Nat.leb 65 n && Nat.leb n 90)%bool then Some (Z.of_nat (n - 55))
  else None.

(** The digits of [s] up to the first character that is not a digit of
    the radix; [acc] is [None] until one digit has been read. *)
Fixpoint leading_digits (radix : Z) (acc : option Z) (s : string) : option Z :=
  match s with
  | EmptyString => acc
  | String c rest =>
      match digit_value c with
      | Some d =>
          if d <? radix
          then leading_digits radix (Some (radix * default 0 acc + d)) rest
          else acc
      | None => acc
      end
  end.

(** The sign, the radix prefix and the digits of a text that starts
    with no white space. *)
Definition signed_digits (s1 : string) : option Z :=
  let '(sign, s2) :=
    match s1 with
    | String "-" rest => (-1, rest)
    | String "+" rest => (1, rest)
    | _ => (1, s1)
    end in
  let '(radix, s3) :=
    match s2 with
    | String "0" (String "x" rest) => (16, rest)
    | String "0" (String "X" rest) => (16, rest)
    | _ => (10, s2)
    end in
  Z.mul sign <$> leading_digits radix None s3.

(** The integer the text denotes, before it becomes a Number. *)
Definition mathInt (s : string) : option Z :=
  signed_digits (skip_white_space s).

(** The Number (IEEE double) nearest to an integer, a tie going to the
    even significand: every integer up to 2^53 in magnitude is a
    Number, beyond that 53 significant bits are kept.  Magnitudes that
    overflow to Infinity, from 2^1024 on, are outside the model. *)
Definition to_double (n : Z) : Z :=
  let a := Z.abs n in
  if a <=? 2 ^ 53 then n
  else
    let e := Z.log2 a - 52 in
    let q := a / 2 ^ e in
    let r := a mod 2 ^ e in
    let half := 2 ^ (e - 1) in
    let q' := if r <? half then q
              else if half <? r then q + 1
              else if Z.even q then q else q + 1 in
    Z.sgn n * (q' * 2 ^ e).

Definition parseInt (s : string) : option Z := to_double <$> mathInt s.

(** ** The in-memory store (server.js lines 17-18) *)

Record store : Type := Store {
  participants : list object;
  participantIdCounter : Z
}.

Definition initial_store : store :=
  {| participants := []; participantIdCounter := 1 |}.

(** What a request reads from the process: the clock and the uptime. *)
Record env : Type := Env {
  iso_now : string;      (* new Date().toISOString() *)
  epoch_ms : Z;          (* Date.now() *)
  uptime : Q             (* process.uptime() *)
}.

Inductive method : Type := GET | POST | DELETE.

Record request : Type := Request {
  req_method : method;
  req_path : list string;           (* the path, split at "/" *)
  req_query : gmap string string;   (* req.query *)
  req_body : object                 (* req.body *)
}.

Record statistics : Type := Statistics {
  totalParticipants : nat;
  uniqueOffices : nat;
  profileDistribution : gmap string value;
  concernDistribution : gmap string value;
  avgTraitsSelected : Z;
  completionRate : Z;
  lastUpdated : string
}.

Inductive body : Type :=
| BRecords (l : list object)
| BRecord (p : object)
| BError (msg : string)
| BMessage (msg : string)
| BStats (s : statistics)
| BCsv (filename text : string)
| BHealth (participantCount : nat) (up : Q)
| BNoRoute.

Record response : Type := Response {
  status : Z;
  payload : body
}.

(** [res.json(x)] answers with status 200 unless [res.status] was
    called first. *)
Definition json (b : body) : response := {| status := 200; payload := b |}.

(** A handler runs on the store and leaves a store; [None] in place of
    the response is an exception thrown while it ran. *)
Definition handler : Type :=
  gmap string string -> request -> env -> store -> store * option response.

(** [arr.filter(f)] for a callback that may throw: the first exception
    ends the loop. *)
Fixpoint array_filter {A} (f : A -> option bool) (l : list A) : option (list A) :=
  match l with
  | [] => Some []
  | x :: rest =>
      keep ← f x;
      kept ← array_filter f rest;
      Some (if keep : bool then x :: kept else kept)
  end.

(** ** Record store handlers *)

(** GET /api/participants (lines 26-28). *)
Definition get_all_participants : handler := fun _ _ _ st =>
  (st, Some (json (BRecords (participants st)))).

(** [p.id === n] for the result [n] of [parseInt]; NaN equals nothing. *)
Definition id_is (n : option Z) (p : object) : bool :=
  match n, get p "id" with
  | Some k, Some (JNum i) => Z.eqb i k
  | _, _ => false
  end.

(** GET /api/participants/:id (lines 31-38). *)
Definition get_participant_by_id : handler := fun params _ _ st =>
  let wanted := parseInt (default "" (params !! "id")) in
  match List.find (id_is wanted) (participants st) with
  | Some participant => (st, Some (json (BRecord participant)))
  | None =>
      (st, Some {| status := 404; payload := BError "Participant not found" |})
  end.

(** The object literal [{ id: counter, ...body, timestamp: now }]:
    properties are defined left to right, a later one replacing an
    earlier one of the same name. *)
Definition spread (src acc : object) : object := src ∪ acc.

Definition new_participant (counter : Z) (fields : object) (now : string) : object :=
  <["timestamp" := JStr now]> (spread fields (<["id" := JNum counter]> ∅)).

(** POST /api/participants (lines 41-49). *)
Definition create_participant : handler := fun _ req e st =>
  let newParticipant :=
    new_participant (participantIdCounter st) (req_body req) (iso_now e) in
  ({| participants := (participants st ++ [newParticipant])%list;
      participantIdCounter := participantIdCounter st + 1 |},
   Some {| status := 201; payload := BRecord newParticipant |}).

(** DELETE /api/participants (lines 106-110). *)
Definition delete_all_participants : handler := fun _ _ _ _ =>
  ({| participants := []; participantIdCounter := 1 |},
   Some (json (BMessage "All participants deleted"))).

(** [p.congressionalOffice?.includes(text)]: undefined for an absent or
    null field, substring test on a string, membership on an array, and
    a TypeError on a number or a boolean. *)
Definition office_includes (text : string) (p : object) : option bool :=
  match get p "congressionalOffice" with
  | None | Some JNull => Some false
  | Some (JStr s) => Some (str_includes s text)
  | Some (JArr l) =>
      Some (existsb (fun e => match e with
                              | JStr s => String.eqb s text
                              | _ => false
                              end) l)
  | Some (JNum _) | Some (JBool _) => None
  end.

(** GET /api/participants/office/:office (lines 77-82). *)
Definition get_by_office : handler := fun params _ _ st =>
  let office := default "" (params !! "office") in
  (st, officeParticipants ← array_filter (office_includes office) (participants st);
       Some (json (BRecords officeParticipants))).

(** [p.audienceProfile === profile]. *)
Definition profile_is (profile : string) (p : object) : bool :=
  match get p "audienceProfile" with
  | Some (JStr s) => String.eqb s profile
  | _ => false
  end.

(** GET /api/participants/profile/:profile (lines 85-90). *)
Definition get_by_profile : handler := fun params _ _ st =>
  let profile := default "" (params !! "profile") in
  (st, Some (json (BRecords (List.filter (profile_is profile) (participants st))))).

Definition searchString (p : object) : string :=
  toLowerCase (render (get p "name") ++ " "
               ++ render (get p "congressionalOffice") ++ " "
               ++ render (get p "audienceProfile")).

(** GET /api/participants/search (lines 93-103). *)
Definition search_participants : handler := fun _ req _ st =>
  match req_query req !! "q" with
  | None | Some EmptyString => (st, Some (json (BRecords (participants st))))
  | Some q =>
      (st, Some (json (BRecords
         (List.filter (fun p => str_includes (searchString p) (toLowerCase q))
                      (participants st)))))
  end.

(** ** Statistics (lines 52-74) *)

(** [p.congressionalOffice?.split('|')[0]]: [Some None] is the value
    undefined, the outer [None] the TypeError of calling [split] on a
    value that has none. *)
Definition office_piece (i : nat) (p : object) : option (option string) :=
  match get p "congressionalOffice" with
  | None | Some JNull => Some None
  | Some (JStr s) => Some (str_split "|" s !! i)
  | Some _ => None
  end.

(** [new Set(values)]: a value is added unless the set holds it. *)
Definition Set_add {A} `{EqDecision A} (set : list A) (x : A) : list A :=
  if decide (x ∈ set) then set else (set ++ [x])%list.

Definition new_Set {A} `{EqDecision A} (values : list A) : list A :=
  foldl Set_add [] values.

(** The members every object literal inherits from [Object.prototype]. *)
Definition prototype_functions : list string :=
  [ "constructor"; "hasOwnProperty"; "isPrototypeOf"; "propertyIsEnumerable";
    "toLocaleString"; "toString"; "valueOf"; "__defineGetter__";
    "__defineSetter__"; "__lookupGetter__"; "__lookupSetter__" ].

Definition function_text (name : string) : string :=
  "function " ++ (if String.eqb name "constructor" then "Object" else name)
  ++ "() { [native code] }".

(** [x + 1] for a truthy [x]. *)
Definition plus_one (x : value) : value :=
  match x with
  | JNum n => JNum (n + 1)
  | JBool true => JNum 2
  | JBool false | JNull => JNum 1
  | JStr _ | JArr _ => JStr (to_string x ++ "1")
  end.

(** [dist[key] = (dist[key] || 0) + 1] on an object literal [dist].
    The read falls back to [Object.prototype]; writing [__proto__] a
    string changes nothing. *)
Definition tally (dist : gmap string value) (key : string) : gmap string value :=
  match dist !! key with
  | Some x => <[key := if truthy (Some x) then plus_one x else JNum 1]> dist
  | None =>
      if String.eqb key "__proto__" then dist
      else if bool_decide (key ∈ prototype_functions)
           then <[key := JStr (function_text key ++ "1")]> dist
           else <[key := JNum 1]> dist
  end.

Definition distribution (field : string) (ps : list object) : gmap string value :=
  foldl (fun dist p => tally dist (render (get p field))) ∅ ps.

(** [p.selectedTraits?.length || 0]. *)
Definition traits_selected (p : object) : Z :=
  match get p "selectedTraits" with
  | Some (JStr s) => Z.of_nat (String.length s)
  | Some (JArr l) => Z.of_nat (length l)
  | _ => 0
  end.

Definition totalTraits (ps : list object) : Z :=
  foldl (fun sum p => sum + traits_selected p) 0 ps.

(** [Math.round]: the nearest integer, a tie going up. *)
Definition Math_round (x : Q) : Z := Qfloor (Qplus x (Qmake 1 2)).

Definition get_statistics : handler := fun _ _ e st =>
  let ps := participants st in
  (st,
   keys ← mapM (office_piece 0) ps;
   Some (json (BStats
     {| totalParticipants := length ps;
        uniqueOffices := length (new_Set keys);
        profileDistribution := distribution "audienceProfile" ps;
        concernDistribution := distribution "primaryConcern" ps;
        avgTraitsSelected :=
          if Nat.ltb 0 (length ps)
          then Math_round (Qdiv (inject_Z (totalTraits ps))
                                (inject_Z (Z.of_nat (length ps))))
          else 0;
        completionRate := 100;
        lastUpdated := iso_now e |}))).

(** ** CSV export (lines 113-126) *)

Definition dquote : string := String (ascii_of_nat 34) EmptyString.
Definition newline : string := String (ascii_of_nat 10) EmptyString.
Definition quoted (s : string) : string := dquote ++ s ++ dquote.

Definition csv_header : string :=
  "ID,Name,Congressional Office,Profile,Primary Concern,Adjectives,Priorities,Selected Traits,Timestamp"
  ++ newline.

(** [x || 'Unknown'] for a string or undefined [x]. *)
Definition or_Unknown (x : option string) : string :=
  match x with
  | None | Some EmptyString => "Unknown"
  | Some s => s
  end.

(** [const office = p.congressionalOffice?.split('|')[1] || 'Unknown']. *)
Definition office (p : object) : option string :=
  or_Unknown <$> office_piece 1 p.

(** [(v || []).join(sep)]: a truthy value that is not an array has no
    [join]. *)
Definition joined (sep : string) (v : option value) : option string :=
  if truthy v
  then match v with
       | Some (JArr l) => Some (array_join sep l)
       | _ => None
       end
  else Some "".

Definition csv_row (p : object) : option string :=
  office ← office p;
  adjectives ← joined ", " (get p "adjectives");
  priorities ← joined "; " (get p "priorities");
  selectedTraits ← joined ", " (get p "selectedTraits");
  Some (render (get p "id") ++ "," ++ quoted (render (get p "name")) ++ ","
        ++ quoted office ++ "," ++ quoted (render (get p "audienceProfile")) ++ ","
        ++ quoted (render (get p "primaryConcern")) ++ ","
        ++ quoted adjectives ++ "," ++ quoted priorities ++ ","
        ++ quoted selectedTraits ++ "," ++ quoted (render (get p "timestamp"))
        ++ newline).

Definition csv_text (ps : list object) : option string :=
  rows ← mapM csv_row ps;
  Some (csv_header ++ String.concat "" rows).

Definition export_csv : handler := fun _ _ e st =>
  (st, csv ← csv_text (participants st);
       Some (json (BCsv ("participants-" ++ number_to_string (epoch_ms e) ++ ".csv")
                        csv))).

(** GET /api/health (lines 129-135). *)
Definition health_check : handler := fun _ _ e st =>
  (st, Some (json (BHealth (length (participants st)) (uptime e)))).

(** ** Routing *)

Inductive segment : Type :=
| Lit (s : string)
| Param (name : string).

(** A pattern matches a path of the same number of segments; a
    parameter takes one whole non-empty segment. *)
Fixpoint match_path (pattern : list segment) (path : list string)
    (params : gmap string string) : option (gmap string string) :=
  match pattern, path with
  | [], [] => Some params
  | Lit s :: pattern', x :: path' =>
      if String.eqb s x then match_path pattern' path' params else None
  | Param name :: pattern', x :: path' =>
      if String.eqb x "" then None
      else match_path pattern' path' (<[name := x]> params)
  | _, _ => None
  end.

Definition method_eqb (a b : method) : bool :=
  match a, b with
  | GET, GET | POST, POST | DELETE, DELETE => true
  | _, _ => false
  end.

Record route : Type := Route {
  route_method : method;
  route_pattern : list segment;
  route_handler : handler
}.

(** The routes in the order [server.js] registers them. *)
Definition routes : list route :=
  [ Route GET [Lit "api"; Lit "participants"] get_all_participants;
    Route GET [Lit "api"; Lit "participants"; Param "id"] get_participant_by_id;
    Route POST [Lit "api"; Lit "participants"] create_participant;
    Route GET [Lit "api"; Lit "statistics"] get_statistics;
    Route GET [Lit "api"; Lit "participants"; Lit "office"; Param "office"]
      get_by_office;
    Route GET [Lit "api"; Lit "participants"; Lit "profile"; Param "profile"]
      get_by_profile;
    Route GET [Lit "api"; Lit "participants"; Lit "search"] search_participants;
    Route DELETE [Lit "api"; Lit "participants"] delete_all_participants;
    Route GET [Lit "api"; Lit "export"; Lit "csv"] export_csv;
    Route GET [Lit "api"; Lit "health"] health_check ].

(** The error-handling middleware (lines 138-141). *)
Definition error_response : response :=
  {| status := 500; payload := BError "Something went wrong!" |}.

Definition no_route : response := {| status := 404; payload := BNoRoute |}.

(** The first route whose method and pattern match answers; a handler
    that answers does not pass the request on. *)
Fixpoint dispatch_in (rs : list route) (req : request) (e : env) (st : store)
    : store * response :=
  match rs with
  | [] => (st, no_route)
  | r :: rest =>
      if method_eqb (route_method r) (req_method req)
      then match match_path (route_pattern r) (req_path req) ∅ with
           | Some params =>
               let '(st', answer) := route_handler r params req e st in
               (st', default error_response answer)
           | None => dispatch_in rest req e st
           end
      else dispatch_in rest req e st
  end.

Definition dispatch : request -> env -> store -> store * response :=
  dispatch_in routes.

(** A run of the server: the requests are served one after the other,
    each on the store the previous one left. *)
Fixpoint serve (reqs : list (request * env)) (st : store) : store * list response :=
  match reqs with
  | [] => (st, [])
  | (req, e) :: rest =>
      let '(st1, r) := dispatch req e st in
      let '(st2, answers) := serve rest st1 in
      (st2, r :: answers)
  end.

(** ** Vocabulary of the specification *)

(** The requests of the operations the specification names. *)
Definition Insert (fields : object) : request :=
  Request POST ["api"; "participants"] ∅ fields.

Definition Clear : request := Request DELETE ["api"; "participants"] ∅ ∅.

Definition ListAll : request := Request GET ["api"; "participants"] ∅ ∅.

Definition GetById (id : string) : request :=
  Request GET ["api"; "participants"; id] ∅ ∅.

Definition Search (query : gmap string string) : request :=
  Request GET ["api"; "participants"; "search"] query ∅.

Definition not_found : response :=
  {| status := 404; payload := BError "Participant not found" |}.

(** The answer is the first record of [ps] whose id is the number
    [n], with status 200, or the Not-Found answer when no record of
    [ps] has that id. *)
Definition first_with_id (n : Z) (ps : list object) (answer : response) : Prop :=
  (∃ before p after,
      ps = (before ++ p :: after)%list
      ∧ get p "id" = Some (JNum n)
      ∧ Forall (fun q => get q "id" ≠ Some (JNum n)) before
      ∧ answer = json (BRecord p))
  ∨ (Forall (fun q => get q "id" ≠ Some (JNum n)) ps ∧ answer = not_found).

(** The records a run created: the bodies of its 201 answers. *)
Definition created (answers : list response) : list object :=
  omap (fun r => match payload r with
                 | BRecord p => if status r =? 201 then Some p else None
                 | _ => None
                 end) answers.

Definition ids (ps : list object) : list (option value) :=
  map (fun p => get p "id") ps.

(** The ids [1, 2, ..., n]. *)
Definition numbers (n : nat) : list (option value) :=
  map (fun i => Some (JNum i)) (seqZ 1 (Z.of_nat n)).

Definition has_no_id (fields : object) : Prop := fields !! "id" = None.

(** The records that a run of Insert requests builds when the counter
    starts at [counter]. *)
Fixpoint inserted (counter : Z) (inserts : list (object * env)) : list object :=
  match inserts with
  | [] => []
  | (fields, e) :: rest =>
      new_participant counter fields (iso_now e) :: inserted (counter + 1) rest
  end.

Definition Inserts (inserts : list (object * env)) : list (request * env) :=
  map (fun fe => (Insert (fst fe), snd fe)) inserts.

(** The collection holds the ids 1, 2, ... in order and the counter is
    the next one. *)
Definition numbered (st : store) : Prop :=
  ids (participants st) = numbers (length (participants st))
  ∧ participantIdCounter st = 1 + Z.of_nat (length (participants st)).

Definition GetStatistics : request := Request GET ["api"; "statistics"] ∅ ∅.

Fixpoint has_char (c : ascii) (s : string) : bool :=
  match s with
  | EmptyString => false
  | String a rest => Ascii.eqb a c || has_char c rest
  end.

(** The office key of a record in the words of the specification: the
    text before the first bar, the whole text when it has no bar, and
    the one undefined key, [None], when the field is absent. *)
Inductive office_key (p : object) : option string → Prop :=
| office_key_absent :
    get p "congressionalOffice" = None → office_key p None
| office_key_whole s :
    get p "congressionalOffice" = Some (JStr s) →
    has_char "|" s = false →
    office_key p (Some s)
| office_key_before_bar k rest :
    get p "congressionalOffice" = Some (JStr (k ++ String "|" rest)) →
    has_char "|" k = false →
    office_key p (Some k).

(** The data model of the specification: [congressionalOffice] is
    free text or absent, [selectedTraits] a sequence or absent. *)
Definition office_is_text (p : object) : Prop :=
  get p "congressionalOffice" = None
  ∨ ∃ s, get p "congressionalOffice" = Some (JStr s).

Definition traits_are_sequence (p : object) : Prop :=
  get p "selectedTraits" = None
  ∨ ∃ l, get p "selectedTraits" = Some (JArr l).

Definition sequence_length (v : option value) : nat :=
  match v with
  | Some (JArr l) => length l
  | _ => 0
  end.

Definition total_length (ps : list object) : nat :=
  sum_list (map (fun p => sequence_length (get p "selectedTraits")) ps).

(** [r] is the integer nearest to [x], the upper one of two equally
    near. *)
Definition nearest_integer (x : Q) (r : Z) : Prop :=
  Qle (Qminus (inject_Z r) (Qmake 1 2)) x
  ∧ Qlt x (Qplus (inject_Z r) (Qmake 1 2)).

Definition mean (total n : nat) : Q :=
  Qdiv (inject_Z (Z.of_nat total)) (inject_Z (Z.of_nat n)).

(** The property keys under which the records are tallied. *)
Definition tally_keys (field : string) (ps : list object) : list string :=
  map (fun p => render (get p field)) ps.

(** How many records are tallied under the key "undefined". *)
Definition undefined_count (field : string) (ps : list object) : Z :=
  Z.of_nat (length (List.filter (fun k => String.eqb k "undefined")
                                (tally_keys field ps))).

(** A text that is empty or begins with a bar: what may follow the
    second piece of [congressionalOffice]. *)
Definition ends_piece (rest : string) : Prop :=
  rest = "" ∨ ∃ more, rest = String "|" more.

(** A handler that returns the store it was given. *)
Definition read_only (h : handler) : Prop :=
  ∀ params req e st, fst (h params req e st) = st.

(** What one request can do to the store. *)
Definition store_step (req : request) (e : env) (st st' : store) : Prop :=
  st' = st
  ∨ st' = initial_store
  ∨ st' = {| participants :=
               (participants st
                ++ [new_participant (participantIdCounter st) (req_body req)
                                    (iso_now e)])%list;
             participantIdCounter := participantIdCounter st + 1 |}.

(** The cell of a key that is no member of [Object.prototype] is
    absent or a positive count. *)
Definition counts (cell : option value) (n : Z) : Prop :=
  (cell = None ∧ n = 0) ∨ (cell = Some (JNum n) ∧ 0 < n).

(** The two records of the specification's statistics example. *)
Definition spec_example_A : object :=
  <["name" := JStr "A"]> (<["audienceProfile" := JStr "p1"]>
  (<["primaryConcern" := JStr "c1"]>
  (<["selectedTraits" := JArr [JStr "x"; JStr "y"]]> ∅))).

Definition spec_example_B : object :=
  <["name" := JStr "B"]> (<["audienceProfile" := JStr "p1"]>
  (<["primaryConcern" := JStr "c2"]>
  (<["selectedTraits" := JArr [JStr "x"]]> ∅))).

(** Splits a goal [Forall P [x1; ...; xn]] into the goals [P xi]. *)
Ltac each_item := repeat first [apply Forall_nil_2 | apply Forall_cons_2].

(** ** Further vocabulary *)

Definition FilterByOffice (text : string) : request :=
  Request GET ["api"; "participants"; "office"; text] ∅ ∅.

Definition FilterByProfile (profile : string) : request :=
  Request GET ["api"; "participants"; "profile"; profile] ∅ ∅.

Definition ExportCsv : request := Request GET ["api"; "export"; "csv"] ∅ ∅.


(** Every record carries an id and a text timestamp, and the counter
    is one more than the number of records. *)
Definition stamped (p : object) : Prop :=
  is_Some (get p "id") ∧ ∃ t, get p "timestamp" = Some (JStr t).

Definition well_kept (st : store) : Prop :=
  participantIdCounter st = 1 + Z.of_nat (length (participants st))
  ∧ Forall stamped (participants st).

(** The collection as the answers of a run tell it: a 201 answer adds
    its record at the end, the answer of the bulk delete empties it. *)
Definition after_answer (ps : list object) (r : response) : list object :=
  match payload r with
  | BRecord p => if status r =? 201 then (ps ++ [p])%list else ps
  | BMessage _ => []
  | _ => ps
  end.


(** The values on which [split] and [includes] are not functions. *)
Definition no_split (v : option value) : Prop :=
  match v with
  | Some (JNum _) | Some (JBool _) | Some (JArr _) => True
  | _ => False
  end.

Definition no_includes (v : option value) : Prop :=
  match v with
  | Some (JNum _) | Some (JBool _) => True
  | _ => False
  end.

(** The values [(v || []).join] works on: falsy ones and arrays. *)
Definition joinable (v : option value) : Prop :=
  truthy v = false ∨ ∃ l, v = Some (JArr l).

Definition exportable (p : object) : Prop :=
  ¬ no_split (get p "congressionalOffice")
  ∧ joinable (get p "adjectives")
  ∧ joinable (get p "priorities")
  ∧ joinable (get p "selectedTraits").

(** A property name that an empty object literal does not inherit. *)
Definition plain_key (k : string) : Prop :=
  k ≠ "__proto__" ∧ k ∉ prototype_functions.

Definition key_count (field k : string) (ps : list object) : Z :=
  Z.of_nat (length (List.filter (fun x => String.eqb x k) (tally_keys field ps))).

(** A character at which a decimal numeral ends: no digit 0-9. *)
Definition ends_decimal (c : ascii) : Prop :=
  match digit_value c with
  | Some d => 10 ≤ d
  | None => True
  end.

(** The office test on a record whose field is text or absent. *)
Definition office_has (text : string) (p : object) : bool :=
  match get p "congressionalOffice" with
  | Some (JStr s) => str_includes s text
  | _ => false
  end.

Definition csv_filename (e : env) : string :=
  "participants-" ++ number_to_string (epoch_ms e) ++ ".csv".

(** A character that can begin nothing [parseInt] reads: an ASCII
    character that is no white space, no sign and no digit 0-9. *)
Definition begins_no_number (c : ascii) : Prop :=
  (nat_of_ascii c < 128)%nat
  ∧ is_white_space c = false
  ∧ c ≠ "+"%char ∧ c ≠ "-"%char
  ∧ ends_decimal c.

(** The values [?.includes] and [?.split] do not throw on, among
    those of the model: the field is absent or null (the call is
    skipped), or has the method. *)
Definition can_include (v : option value) : Prop :=
  match v with
  | None | Some JNull | Some (JStr _) | Some (JArr _) => True
  | _ => False
  end.

Definition can_split (v : option value) : Prop :=
  match v with
  | None | Some JNull | Some (JStr _) => True
  | _ => False
  end.

(** A categorical label: a string, or no value. *)
Definition is_label (v : option value) : Prop :=
  v = None ∨ ∃ s, v = Some (JStr s).

(** The record is counted under the key [k]: its field is the string
    [k], or it has no such field and [k] is "undefined". *)
Definition holds_label (field k : string) (p : object) : bool :=
  match get p field with
  | Some (JStr s) => String.eqb s k
  | None => String.eqb k "undefined"
  | _ => false
  end.

Definition label_count (field k : string) (ps : list object) : Z :=
  Z.of_nat (length (List.filter (holds_label field k) ps)).

(** * Properties *)

(** ** Printing a number and parsing it back *)

Lemma skip_white_space_ascii c rest :
  (nat_of_ascii c < 128)%nat → is_white_space c = false →
  skip_white_space (String c rest) = String c rest.
Proof.
  intros Hc Hw. cbn [skip_white_space]. rewrite Hw.
  assert (H2 : ∀ c2, two_byte_space c c2 = false).
  { intros c2. unfold two_byte_space.
    destruct (Nat.eqb_spec (nat_of_ascii c) 194); [lia|done]. }
  assert (H3 : ∀ c2 c3, three_byte_space c c2 c3 = false).
  { intros c2 c3. unfold three_byte_space.
    destruct (Nat.eqb_spec (nat_of_ascii c) 239); [lia|].
    destruct (Nat.eqb_spec (nat_of_ascii c) 225); [lia|].
    destruct (Nat.eqb_spec (nat_of_ascii c) 226); [lia|].
    destruct (Nat.eqb_spec (nat_of_ascii c) 227); [lia|]. done. }
  destruct rest as [|c2 [|c3 rest]]; [done|by rewrite H2|].
  by rewrite H2, H3.
Qed.

Lemma leading_digits_acc d (acc : positive) :
  leading_digits 10 (Some (Zpos acc)) (NilEmpty.string_of_uint d)
  = Some (Zpos (Pos.of_uint_acc d acc)).
Proof.
  revert acc. induction d; intros acc; [done|..];
    cbn [NilEmpty.string_of_uint leading_digits Pos.of_uint_acc];
    match goal with
    | |- context [digit_value ?c] =>
        let v := eval vm_compute in (digit_value c) in
        change (digit_value c) with v
    end; cbn match beta;
    match goal with
    | |- context [?k <? 10] => change (k <? 10) with true
    end; cbn match; cbn [default];
    rewrite <- IHd; do 2 f_equal; unfold id; lia.
Qed.

Lemma leading_digits_of_uint d :
  leading_digits 10 (Some 0) (NilEmpty.string_of_uint d)
  = Some (Z.of_N (Pos.of_uint d)).
Proof.
  induction d; [done|..];
    cbn [NilEmpty.string_of_uint leading_digits Pos.of_uint];
    match goal with
    | |- context [digit_value ?c] =>
        let v := eval vm_compute in (digit_value c) in
        change (digit_value c) with v
    end; cbn match beta;
    match goal with
    | |- context [?k <? 10] => change (k <? 10) with true
    end; cbn match; cbn [default from_option]; unfold id;
    rewrite ?Z.mul_0_r, ?Z.add_0_l;
    first [ exact IHd | apply (leading_digits_acc d) ].
Qed.

(** The text of a decimal numeral has no white space, sign or [0x]
    in front: its digits are read. *)
Lemma string_of_uint_head d :
  d ≠ Decimal.Nil →
  ∃ c rest, NilEmpty.string_of_uint d = String c rest
            ∧ (nat_of_ascii c < 128)%nat ∧ is_white_space c = false.
Proof.
  destruct d; intros Hd; [done|..]; eexists _, _;
    (split; [reflexivity|]); (split; [vm_compute; lia|reflexivity]).
Qed.

Lemma signed_digits_numeral d :
  d ≠ Decimal.Nil →
  signed_digits (NilEmpty.string_of_uint d)
  = Z.mul 1 <$> leading_digits 10 (Some 0) (NilEmpty.string_of_uint d).
Proof.
  destruct d as [|d|d|d|d|d|d|d|d|d|d]; intros Hd; [done|..];
    try reflexivity.
  destruct d; reflexivity.
Qed.

Lemma mathInt_digits d :
  d ≠ Decimal.Nil →
  mathInt (NilEmpty.string_of_uint d)
  = Z.mul 1 <$> leading_digits 10 (Some 0) (NilEmpty.string_of_uint d).
Proof.
  intros Hd. unfold mathInt.
  destruct (string_of_uint_head d Hd) as (c & rest & Hs & Hc & Hw).
  rewrite Hs, skip_white_space_ascii, <- Hs by done.
  by apply signed_digits_numeral.
Qed.

Lemma mathInt_minus_digits d :
  d ≠ Decimal.Nil →
  mathInt (String "-" (NilEmpty.string_of_uint d))
  = Z.mul (-1) <$> leading_digits 10 (Some 0) (NilEmpty.string_of_uint d).
Proof.
  intros Hd. unfold mathInt.
  rewrite skip_white_space_ascii by (vm_compute; first [lia|done]).
  destruct d as [|d|d|d|d|d|d|d|d|d|d]; [done|..]; try reflexivity.
  destruct d; reflexivity.
Qed.

Lemma string_of_uint_nonnil d :
  d ≠ Decimal.Nil → NilZero.string_of_uint d = NilEmpty.string_of_uint d.
Proof. by destruct d. Qed.

Lemma mathInt_number_to_string n : mathInt (number_to_string n) = Some n.
Proof.
  unfold number_to_string. destruct n as [|p|p]; [done|..];
    cbn [Z.to_int NilZero.string_of_int];
    pose proof (DecimalPos.Unsigned.to_uint_nonnil p) as Hnil;
    rewrite string_of_uint_nonnil by done.
  - rewrite mathInt_digits, leading_digits_of_uint by done.
    rewrite DecimalPos.Unsigned.of_to. cbn. done.
  - rewrite mathInt_minus_digits, leading_digits_of_uint by done.
    rewrite DecimalPos.Unsigned.of_to. cbn. done.
Qed.

Lemma to_double_safe n : Z.abs n ≤ 2 ^ 53 → to_double n = n.
Proof. intros H. unfold to_double. by destruct (Z.leb_spec (Z.abs n) (2 ^ 53)); [|lia]. Qed.

Lemma parseInt_number_to_string n :
  parseInt (number_to_string n) = Some (to_double n).
Proof. unfold parseInt. by rewrite mathInt_number_to_string. Qed.

Lemma number_to_string_inj m n : number_to_string m = number_to_string n → m = n.
Proof.
  intros H. apply (f_equal mathInt) in H.
  rewrite !mathInt_number_to_string in H. by injection H.
Qed.

Lemma number_to_string_nonempty n : ∃ c t, number_to_string n = String c t.
Proof.
  destruct (number_to_string n) as [|c t] eqn:E; [|by exists c, t].
  pose proof (mathInt_number_to_string n) as H. by rewrite E in H.
Qed.

Lemma parseInt_no_number c t : begins_no_number c → parseInt (String c t) = None.
Proof.
  intros (Hc & Hw & Hplus & Hminus & Hd). unfold parseInt, mathInt.
  rewrite skip_white_space_ascii by done. clear Hw.
  unfold ends_decimal in Hd.
  destruct c as [[] [] [] [] [] [] [] []];
    first [ reflexivity
          | by destruct Hplus | by destruct Hminus
          | exfalso; vm_compute in Hd; by apply Hd
          | exfalso; vm_compute in Hc; lia ].
Qed.

(** ** Creating a record *)

Lemma new_participant_timestamp counter fields now :
  get (new_participant counter fields now) "timestamp" = Some (JStr now).
Proof. unfold new_participant, get. apply lookup_insert_eq. Qed.

Lemma new_participant_id counter fields now :
  get (new_participant counter fields now) "id"
  = Some (default (JNum counter) (fields !! "id")).
Proof.
  unfold new_participant, get, spread.
  rewrite lookup_insert_ne by done.
  rewrite lookup_union.
  destruct (fields !! "id") as [v|] eqn:E; rewrite lookup_insert_eq; done.
Qed.

Lemma new_participant_field counter fields now k :
  k ≠ "id" → k ≠ "timestamp" →
  get (new_participant counter fields now) k = fields !! k.
Proof.
  intros Hid Hts. unfold new_participant, get, spread.
  rewrite lookup_insert_ne by done.
  rewrite lookup_union, lookup_insert_ne by done.
  rewrite lookup_empty. by destruct (fields !! k).
Qed.

Lemma dispatch_Insert fields e st :
  dispatch (Insert fields) e st
  = (let p := new_participant (participantIdCounter st) fields (iso_now e) in
     ({| participants := (participants st ++ [p])%list;
         participantIdCounter := participantIdCounter st + 1 |},
      {| status := 201; payload := BRecord p |})).
Proof. reflexivity. Qed.

Lemma dispatch_Clear e st :
  dispatch Clear e st
  = (initial_store, json (BMessage "All participants deleted")).
Proof. reflexivity. Qed.

(** C1 (the code departs from the claim): a create request whose field
    map carries [id: 99] and a [timestamp], sent to the initial store
    (counter 1), stores and returns a record whose id is the client's
    99, not the counter value; only the timestamp is the store's. *)
Theorem create_keeps_client_id e :
  let fields : object :=
    <["id" := JNum 99]> (<["timestamp" := JStr "1999-12-31"]> ∅) in
  ∃ p, dispatch (Insert fields) e initial_store
       = ({| participants := [p]; participantIdCounter := 2 |},
          {| status := 201; payload := BRecord p |})
       ∧ get p "id" = Some (JNum 99)
       ∧ get p "id" ≠ Some (JNum (participantIdCounter initial_store))
       ∧ get p "timestamp" = Some (JStr (iso_now e)).
Proof.
  intros fields. exists (new_participant 1 fields (iso_now e)).
  split; [by rewrite dispatch_Insert|].
  rewrite new_participant_id, new_participant_timestamp.
  by vm_compute.
Qed.

(** ** Lookup by id and the shadowed search route *)

Lemma find_id_is_NaN ps : List.find (id_is None) ps = None.
Proof. induction ps as [|p ps IH]; [done|]. exact IH. Qed.

Lemma id_is_true n p : id_is (Some n) p = true ↔ get p "id" = Some (JNum n).
Proof.
  unfold id_is. destruct (get p "id") as [[| | i | |]|]; try (split; congruence).
  rewrite Z.eqb_eq. split; congruence.
Qed.

(** [Array.prototype.find]: the first element that passes, with
    nothing passing before it. *)
Lemma find_first {A} (f : A → bool) l :
  match List.find f l with
  | Some x => ∃ before after,
      l = (before ++ x :: after)%list ∧ f x = true
      ∧ Forall (fun y => f y = false) before
  | None => Forall (fun y => f y = false) l
  end.
Proof.
  induction l as [|a l IH]; simpl; [constructor|].
  destruct (f a) eqn:Fa.
  - exists [], l. by split_and!.
  - destruct (List.find f l) as [x|].
    + destruct IH as (before & after & -> & Fx & Hb).
      exists (a :: before), after. split_and!; [done..|]. by constructor.
    + by constructor.
Qed.

Lemma dispatch_by_id c t query fields e st :
  dispatch (Request GET ["api"; "participants"; String c t] query fields) e st
  = (st, match List.find (id_is (parseInt (String c t))) (participants st) with
         | Some p => json (BRecord p)
         | None => not_found
         end).
Proof.
  unfold dispatch, routes. cbn -[get_participant_by_id].
  unfold get_participant_by_id. rewrite lookup_insert_eq. simpl default.
  by destruct (List.find _ _).
Qed.

(** C2 (the code departs from the claim): for every store and every
    query, GET /api/participants/search is answered by the route
    /api/participants/:id registered before it, with id "search":
    status 404 and the Not-Found body, never a list of records. *)
Theorem search_is_answered_by_id_route query e st :
  dispatch (Search query) e st = (st, not_found)
  ∧ ∀ ps, snd (dispatch (Search query) e st) ≠ json (BRecords ps).
Proof.
  assert (H : dispatch (Search query) e st = (st, not_found)).
  { unfold Search. rewrite dispatch_by_id.
    change (parseInt "search") with (@None Z).
    by rewrite find_id_is_NaN. }
  split; [exact H|]. intros ps. by rewrite H.
Qed.

Lemma first_with_id_find n ps :
  first_with_id n ps
    (match List.find (id_is (Some n)) ps with
     | Some p => json (BRecord p)
     | None => not_found
     end).
Proof.
  pose proof (find_first (id_is (Some n)) ps) as H.
  destruct (List.find _ _) as [p|].
  - left. destruct H as (before & after & Hl & Hp & Hb).
    exists before, p, after. split_and!; [done|by apply id_is_true| |done].
    eapply Forall_impl; [exact Hb|]. intros q Hq Hid.
    apply id_is_true in Hid. congruence.
  - right. split; [|done].
    eapply Forall_impl; [exact H|]. intros q Hq Hid.
    apply id_is_true in Hid. congruence.
Qed.

(** C7: GET /api/participants/:id leaves the store as it is and
    answers from the Number that [parseInt] reads off the id.  When the
    text parses to [n]: status 200 with the first record of the
    collection whose id is [n] (no record before it has that id), or
    404 with the Not-Found body when no record has id [n]; when the
    text does not parse: 404 with the same body.  The decimal text of
    an integer up to 2^53 in magnitude parses to that integer, so it
    finds the first record with that id; a text that begins with an
    ASCII character other than white space, a sign or a digit does not
    parse, so it is answered 404; and a longer numeral is rounded to
    the nearest Number, so 9007199254740993 finds the record with id
    9007199254740992. *)
Theorem get_by_id_first_match_or_404 :
  (∀ c t e st,
     let id := String c t in
     fst (dispatch (GetById id) e st) = st
     ∧ match parseInt id with
       | None => snd (dispatch (GetById id) e st) = not_found
       | Some n =>
           first_with_id n (participants st) (snd (dispatch (GetById id) e st))
       end)
  ∧ (∀ n e st,
       Z.abs n ≤ 2 ^ 53 →
       fst (dispatch (GetById (number_to_string n)) e st) = st
       ∧ first_with_id n (participants st)
           (snd (dispatch (GetById (number_to_string n)) e st)))
  ∧ (∀ c t e st,
       begins_no_number c →
       dispatch (GetById (String c t)) e st = (st, not_found))
  ∧ (∀ e,
       let p : object := {["id" := JNum 9007199254740992]} in
       let st := {| participants := [p]; participantIdCounter := 2 |} in
       dispatch (GetById "9007199254740993") e st = (st, json (BRecord p))).
Proof.
  split_and!.
  - intros c t e st id. unfold GetById. subst id. rewrite dispatch_by_id.
    split; [done|]. cbn [snd].
    destruct (parseInt (String c t)) as [n|]; [apply first_with_id_find|].
    by rewrite find_id_is_NaN.
  - intros n e st Hn. destruct (number_to_string_nonempty n) as (c & t & Hs).
    unfold GetById. rewrite Hs, dispatch_by_id, <- Hs.
    rewrite parseInt_number_to_string, to_double_safe by done.
    split; [done|]. apply first_with_id_find.
  - intros c t e st Hc. unfold GetById.
    by rewrite dispatch_by_id, parseInt_no_number, find_id_is_NaN.
  - intros e p st. reflexivity.
Qed.

Lemma get_by_id_first_match_or_404_witness :
  let e := Env "2024-05-01T10:00:00.000Z" 0 0 in
  let a := new_participant 1 {["name" := JStr "A"]} (iso_now e) in
  let b := new_participant 2 {["name" := JStr "B"]} (iso_now e) in
  let st := {| participants := [a; b]; participantIdCounter := 3 |} in
  Z.abs 2 ≤ 2 ^ 53
  ∧ begins_no_number "a"
  ∧ first_with_id 2 [a; b] (snd (dispatch (GetById "2") e st))
  ∧ snd (dispatch (GetById "2") e st) = json (BRecord b)
  ∧ dispatch (GetById "abc") e st = (st, not_found).
Proof.
  intros e a b st.
  assert (H2 : Z.abs 2 ≤ 2 ^ 53) by (vm_compute; discriminate).
  assert (Ha : begins_no_number "a").
  { split_and!; [vm_compute; lia|reflexivity|discriminate|discriminate|].
    vm_compute. discriminate. }
  split_and!; [exact H2|exact Ha| |reflexivity|].
  - exact (proj2 (proj1 (proj2 get_by_id_first_match_or_404) 2 e st H2)).
  - exact (proj1 (proj2 (proj2 get_by_id_first_match_or_404)) "a"%char "bc" e st Ha).
Defined.


(** ** The search handler, called directly *)

Lemma prefix_spec needle hay :
  String.prefix needle hay = true ↔ ∃ after, hay = needle ++ after.
Proof.
  revert hay. induction needle as [|a needle IH]; intros hay.
  - split; [intros _; by exists hay|by destruct hay].
  - destruct hay as [|c hay]; simpl.
    + split; [done|]. by intros [after H].
    + destruct (ascii_dec a c) as [->|Hne].
      * rewrite IH. split; intros [after H]; exists after.
        -- by rewrite H.
        -- by injection H.
      * split; [done|]. intros [after H]. injection H as H1 H2. done.
Qed.

Lemma str_includes_spec hay needle :
  str_includes hay needle = true
  ↔ ∃ before after, hay = before ++ needle ++ after.
Proof.
  induction hay as [|c hay IH].
  - cbn [str_includes]. rewrite orb_false_r, prefix_spec. split.
    + intros [after H]. by exists "", after.
    + intros ([|b before] & after & H); [by exists after|done].
  - cbn [str_includes]. rewrite orb_true_iff, prefix_spec, IH. split.
    + intros [[after H] | (before & after & H)].
      * by exists "", after.
      * exists (String c before), after. by rewrite H.
    + intros ([|b before] & after & H).
      * left. by exists after.
      * right. injection H as _ H. by exists before, after.
Qed.

(** The handler of lines 93-103 answers the whole collection for an
    absent or empty [q] and otherwise the records whose search string
    has the lower-cased [q] inside, in collection order. *)
Lemma search_participants_spec params query e st :
  ∃ found,
    search_participants params (Search query) e st
    = (st, Some (json (BRecords found)))
    ∧ match query !! "q" with
      | None | Some EmptyString => found = participants st
      | Some q =>
          found = List.filter (fun p => str_includes (searchString p) (toLowerCase q))
                              (participants st)
          ∧ ∀ p, p ∈ found ↔
                 p ∈ participants st
                 ∧ ∃ before after,
                     searchString p = before ++ toLowerCase q ++ after
      end.
Proof.
  unfold search_participants, Search. cbn [req_query].
  destruct (query !! "q") as [[|c q]|]; eexists; (split; [reflexivity|]); try done.
  split; [done|]. intros p.
  rewrite list_elem_of_In, filter_In, str_includes_spec, <- list_elem_of_In.
  done.
Qed.

Example search_participants_finds_smith :
  let john : object := {["name" := JStr "John Smith"]} in
  snd (search_participants ∅ (Search {["q" := "SMITH"]}) (Env "" 0 0)
         {| participants := [∅; john]; participantIdCounter := 3 |})
  = Some (json (BRecords [john])).
Proof. reflexivity. Qed.

(** [parseInt] on some path parameters. *)
Example parseInt_examples :
  map parseInt ["12"; " 42"; "-7"; "12abc"; "1.5"; "0x1F"; "abc"; ""; "search"]
  = [Some 12; Some 42; Some (-7); Some 12; Some 1; Some 31; None; None; None].
Proof. reflexivity. Qed.

(** ** Clearing the store *)

(** C8: Clear always answers 200 and leaves the initial store: the
    collection listed afterwards is empty, the counter is 1, and the
    next Insert builds its record from id 1 and moves the counter to 2;
    a field map without an [id] entry gets the id 1. *)
Theorem clear_resets_store e st :
  dispatch Clear e st
  = (initial_store, json (BMessage "All participants deleted"))
  ∧ (∀ e1, dispatch ListAll e1 (fst (dispatch Clear e st))
           = (initial_store, json (BRecords [])))
  ∧ (∀ fields e1,
       dispatch (Insert fields) e1 (fst (dispatch Clear e st))
       = (let p := new_participant 1 fields (iso_now e1) in
          ({| participants := [p]; participantIdCounter := 2 |},
           {| status := 201; payload := BRecord p |})))
  ∧ (∀ fields now,
       has_no_id fields →
       get (new_participant 1 fields now) "id" = Some (JNum 1)).
Proof.
  split_and!; [done..|].
  intros fields now Hid. rewrite new_participant_id.
  unfold has_no_id in Hid. by rewrite Hid.
Qed.

Lemma clear_resets_store_witness :
  has_no_id {["name" := JStr "A"]}
  ∧ get (new_participant 1 {["name" := JStr "A"]} "2024-05-01T10:00:00.000Z") "id"
    = Some (JNum 1).
Proof.
  split; [reflexivity|].
  apply (clear_resets_store (Env "" 0 0) initial_store). reflexivity.
Defined.

(** ** Frame: which requests change the store *)

Section Frame.
Variables (params : gmap string string) (req : request) (e : env) (st : store).

Lemma get_all_participants_frame :
  fst (get_all_participants params req e st) = st.
Proof. reflexivity. Qed.

Lemma get_participant_by_id_frame :
  fst (get_participant_by_id params req e st) = st.
Proof. unfold get_participant_by_id. by destruct (List.find _ _). Qed.

Lemma get_by_office_frame : fst (get_by_office params req e st) = st.
Proof. reflexivity. Qed.

Lemma get_by_profile_frame : fst (get_by_profile params req e st) = st.
Proof. reflexivity. Qed.

Lemma search_participants_frame :
  fst (search_participants params req e st) = st.
Proof.
  unfold search_participants.
  by destruct (req_query req !! "q") as [[|]|].
Qed.

Lemma get_statistics_frame : fst (get_statistics params req e st) = st.
Proof. reflexivity. Qed.

Lemma export_csv_frame : fst (export_csv params req e st) = st.
Proof. reflexivity. Qed.

Lemma health_check_frame : fst (health_check params req e st) = st.
Proof. reflexivity. Qed.
End Frame.


(** Dispatch over a list of routes whose GET handlers are read-only
    leaves the store alone on a GET request. *)
Lemma dispatch_in_GET_frame rs req e st :
  Forall (fun r => route_method r = GET → read_only (route_handler r)) rs →
  req_method req = GET →
  fst (dispatch_in rs req e st) = st.
Proof.
  intros Hrs Hget. induction Hrs as [|r rs Hr _ IH]; [done|].
  simpl. destruct (method_eqb (route_method r) (req_method req)) eqn:Hm; [|done].
  destruct (match_path _ _ _) as [ps|]; [|done].
  assert (route_method r = GET) as Hg.
  { rewrite Hget in Hm. by destruct (route_method r). }
  specialize (Hr Hg ps req e st).
  destruct (route_handler r ps req e st) as [st' answer]. exact Hr.
Qed.

(** C9: each of the eight read-only handlers (list, by id, by office,
    by profile, search, statistics, CSV export, health) returns the
    store it was given, collection and counter alike, also when it
    throws; so does the dispatch of every GET request, whatever its
    path.  A create request does change the store. *)
Theorem reads_leave_store_unchanged :
  Forall read_only
    [ get_all_participants; get_participant_by_id; get_by_office;
      get_by_profile; search_participants; get_statistics; export_csv;
      health_check ]
  ∧ (∀ path query fields e st,
       fst (dispatch (Request GET path query fields) e st) = st)
  ∧ (∀ fields e st, fst (dispatch (Insert fields) e st) ≠ st).
Proof.
  assert (Hall : Forall read_only
    [ get_all_participants; get_participant_by_id; get_by_office;
      get_by_profile; search_participants; get_statistics; export_csv;
      health_check ]).
  { each_item;
      intros ps req e st.
    - apply get_all_participants_frame.
    - apply get_participant_by_id_frame.
    - apply get_by_office_frame.
    - apply get_by_profile_frame.
    - apply search_participants_frame.
    - apply get_statistics_frame.
    - apply export_csv_frame.
    - apply health_check_frame. }
  split_and!; [exact Hall| |].
  - intros path query fields e st. apply dispatch_in_GET_frame; [|done].
    unfold routes. rewrite !Forall_cons in Hall. rewrite !Forall_cons.
    destruct Hall as (H1 & H2 & H3 & H4 & H5 & H6 & H7 & H8 & _).
    split_and!; simpl; intros; try done.
  - intros fields e st Heq. rewrite dispatch_Insert in Heq. simpl in Heq.
    apply (f_equal participantIdCounter) in Heq. simpl in Heq. lia.
Qed.

(** ** Numbering of the created records *)

Lemma serve_Inserts inserts st :
  serve (Inserts inserts) st
  = ({| participants :=
          (participants st ++ inserted (participantIdCounter st) inserts)%list;
        participantIdCounter :=
          participantIdCounter st + Z.of_nat (length inserts) |},
     map (fun p => {| status := 201; payload := BRecord p |})
         (inserted (participantIdCounter st) inserts)).
Proof.
  revert st. induction inserts as [|[fields e] rest IH]; intros st.
  - simpl. rewrite app_nil_r, Z.add_0_r. by destruct st.
  - cbn [Inserts map serve fst snd]. rewrite dispatch_Insert. cbn beta iota zeta.
    change (map _ rest) with (Inserts rest). rewrite IH.
    cbn [participants participantIdCounter inserted].
    rewrite <- app_assoc. cbn [app length map]. do 2 f_equal. lia.
Qed.

Lemma created_201 ps :
  created (map (fun p => {| status := 201; payload := BRecord p |}) ps) = ps.
Proof.
  induction ps as [|p ps IH]; [done|].
  unfold created in *. cbn [map omap list_omap status payload].
  change (201 =? 201) with true. cbn iota. by f_equal.
Qed.

Lemma ids_inserted counter inserts :
  Forall (fun fe => has_no_id (fst fe)) inserts →
  ids (inserted counter inserts)
  = map (fun i => Some (JNum i)) (seqZ counter (Z.of_nat (length inserts))).
Proof.
  intros H. revert counter. induction H as [|[fields e] rest Hf _ IH]; intros counter.
  - done.
  - cbn [inserted ids map length]. rewrite Nat2Z.inj_succ, seqZ_cons by lia.
    cbn [map]. rewrite new_participant_id. unfold has_no_id in Hf. simpl in Hf.
    rewrite Hf. simpl default. f_equal.
    replace (Z.pred (Z.succ (Z.of_nat (length rest)))) with (Z.of_nat (length rest)) by lia.
    apply IH.
Qed.

Lemma numbers_lookup n i v :
  numbers n !! i = Some v → v = Some (JNum (1 + Z.of_nat i)).
Proof.
  unfold numbers. rewrite list_lookup_fmap. intros H.
  destruct (seqZ 1 (Z.of_nat n) !! i) as [k|] eqn:E; [|done].
  apply lookup_seqZ in E as [-> _]. by injection H as <-.
Qed.

Lemma numbers_NoDup n : NoDup (numbers n).
Proof.
  unfold numbers. apply NoDup_fmap_2; [|apply NoDup_seqZ].
  intros a b H. by injection H.
Qed.

Lemma numbers_snoc n :
  numbers (S n) = (numbers n ++ [Some (JNum (1 + Z.of_nat n))])%list.
Proof.
  unfold numbers. by rewrite seqZ_S, map_app.
Qed.


Lemma dispatch_in_step rs req e st :
  Forall (fun r => ∀ ps, store_step req e st (fst (route_handler r ps req e st))) rs →
  store_step req e st (fst (dispatch_in rs req e st)).
Proof.
  induction 1 as [|r rs Hr _ IH]; [by left|].
  simpl. destruct (method_eqb _ _); [|done].
  destruct (match_path _ _ _) as [ps|]; [|done].
  specialize (Hr ps). by destruct (route_handler r ps req e st).
Qed.

Lemma dispatch_step req e st : store_step req e st (fst (dispatch req e st)).
Proof.
  apply dispatch_in_step. unfold routes.
  each_item; intros ps; cbn [route_handler].
  - left. apply get_all_participants_frame.
  - left. apply get_participant_by_id_frame.
  - by right; right.
  - left. apply get_statistics_frame.
  - left. apply get_by_office_frame.
  - left. apply get_by_profile_frame.
  - left. apply search_participants_frame.
  - by right; left.
  - left. apply export_csv_frame.
  - left. apply health_check_frame.
Qed.

Lemma numbered_initial : numbered initial_store.
Proof. by split. Qed.

Lemma numbered_step req e st :
  has_no_id (req_body req) → numbered st → numbered (fst (dispatch req e st)).
Proof.
  intros Hid [Hids Hc].
  destruct (dispatch_step req e st) as [-> | [-> | ->]].
  - by split.
  - apply numbered_initial.
  - split; cbn [participants participantIdCounter].
    + rewrite length_app. cbn [length]. rewrite Nat.add_1_r, numbers_snoc.
      unfold ids in *. rewrite map_app, Hids. cbn [map].
      rewrite new_participant_id. unfold has_no_id in Hid. rewrite Hid.
      simpl default. by rewrite Hc.
    + rewrite length_app. cbn [length]. lia.
Qed.

Lemma serve_numbered reqs st :
  Forall (fun re => has_no_id (req_body (fst re))) reqs →
  numbered st → numbered (fst (serve reqs st)).
Proof.
  intros H. revert st. induction H as [|[req e] rest Hr _ IH]; intros st Hst.
  - done.
  - cbn [serve]. pose proof (numbered_step req e st Hr Hst) as H1.
    destruct (dispatch req e st) as [st1 r]. specialize (IH st1 H1).
    by destruct (serve rest st1).
Qed.

(** C3 (as amended): N create requests whose field maps have no [id]
    entry, sent to the initial store, create records with the ids
    1..N in creation order, each greater than the one before and no
    two equal, and these records are the collection.  In any run of
    requests with such field maps the collection always holds the ids
    1..n of its n records and the counter is n+1; Clear puts the store
    back to its initial state, where the numbering starts again at 1. *)
Theorem inserts_number_records_from_one (inserts : list (object * env)) :
  Forall (fun fe => has_no_id (fst fe)) inserts →
  let run := serve (Inserts inserts) initial_store in
  ids (created (snd run)) = numbers (length inserts)
  ∧ participants (fst run) = created (snd run)
  ∧ NoDup (ids (created (snd run)))
  ∧ (∀ i a b,
       ids (created (snd run)) !! i = Some (Some (JNum a)) →
       ids (created (snd run)) !! S i = Some (Some (JNum b)) →
       a < b)
  ∧ (∀ reqs,
       Forall (fun re => has_no_id (req_body (fst re))) reqs →
       numbered (fst (serve reqs initial_store)))
  ∧ (∀ e st, fst (dispatch Clear e st) = initial_store).
Proof.
  intros Hid run.
  assert (Hids : ids (created (snd run)) = numbers (length inserts)).
  { subst run. rewrite serve_Inserts. cbn [snd]. rewrite created_201.
    by rewrite ids_inserted. }
  split_and!.
  - exact Hids.
  - subst run. rewrite serve_Inserts. cbn [fst snd participants].
    by rewrite created_201.
  - rewrite Hids. apply numbers_NoDup.
  - rewrite Hids. intros i a b Ha Hb.
    apply numbers_lookup in Ha, Hb. injection Ha as ->. injection Hb as ->. lia.
  - intros reqs Hreqs. by apply serve_numbered; [|apply numbered_initial].
  - done.
Qed.

Lemma inserts_number_records_from_one_witness :
  let inserts : list (object * env) :=
    [ ({["name" := JStr "A"]}, Env "2024-05-01T10:00:00.000Z" 0 0);
      (∅, Env "2024-05-01T10:00:01.000Z" 1000 1) ] in
  Forall (fun fe => has_no_id (fst fe)) inserts
  ∧ ids (created (snd (serve (Inserts inserts) initial_store)))
    = [Some (JNum 1); Some (JNum 2)].
Proof.
  intros inserts.
  assert (H : Forall (fun fe => has_no_id (fst fe)) inserts).
  { repeat constructor. }
  split; [exact H|].
  exact (proj1 (inserts_number_records_from_one inserts H)).
Defined.

(** C3 (the claim as stated fails): an Insert, a Clear and another
    Insert, from the initial store, create two records that both carry
    the id 1: the value is used again within the lifetime of the store. *)
Lemma id_one_assigned_again_after_clear :
  let e := Env "2024-05-01T10:00:00.000Z" 0 0 in
  let answers := snd (serve [(Insert ∅, e); (Clear, e); (Insert ∅, e)] initial_store) in
  ids (created answers) = [Some (JNum 1); Some (JNum 1)]
  ∧ ¬ NoDup (ids (created answers)).
Proof.
  intros e answers.
  assert (H : ids (created answers) = [Some (JNum 1); Some (JNum 1)])
    by (vm_compute; reflexivity).
  split; [exact H|]. rewrite H. intros Hnd.
  apply NoDup_cons in Hnd as [Hnotin _]. apply Hnotin. by left.
Qed.

(** ** Splitting at the bar *)

Lemma str_split_no_sep sep s : has_char sep s = false → str_split sep s = [s].
Proof.
  induction s as [|a s IH]; [done|]. simpl. intros H.
  apply orb_false_iff in H as [Ha Hs]. rewrite Ha, (IH Hs). done.
Qed.

Lemma str_split_first_sep sep k rest :
  has_char sep k = false →
  str_split sep (k ++ String sep rest) = k :: str_split sep rest.
Proof.
  induction k as [|a k IH]; simpl; intros H.
  - by rewrite Ascii.eqb_refl.
  - apply orb_false_iff in H as [Ha Hk]. by rewrite Ha, (IH Hk).
Qed.

Lemma first_sep sep s :
  has_char sep s = true →
  ∃ k rest, s = k ++ String sep rest ∧ has_char sep k = false.
Proof.
  induction s as [|a s IH]; [done|]. simpl. intros H.
  destruct (Ascii.eqb a sep) eqn:Ha.
  - apply Ascii.eqb_eq in Ha as ->. by exists "", s.
  - destruct (IH H) as (k & rest & -> & Hk).
    exists (String a k), rest. split; [done|]. simpl. by rewrite Ha.
Qed.

Lemma office_key_piece p k : office_key p k → office_piece 0 p = Some k.
Proof.
  unfold office_piece. destruct 1 as [H | s H Hs | k rest H Hk]; rewrite H.
  - done.
  - by rewrite str_split_no_sep.
  - by rewrite str_split_first_sep.
Qed.

Lemma office_piece_key p :
  office_is_text p → ∃ k, office_piece 0 p = Some k ∧ office_key p k.
Proof.
  intros [H | [s H]].
  - exists None. split; [|by constructor]. unfold office_piece. by rewrite H.
  - destruct (has_char "|" s) eqn:Hs.
    + destruct (first_sep _ _ Hs) as (k & rest & -> & Hk).
      assert (office_key p (Some k)) as Hkey
        by (by apply office_key_before_bar with rest).
      exists (Some k). split; [by apply office_key_piece|done].
    + assert (office_key p (Some s)) as Hkey by (by apply office_key_whole).
      exists (Some s). split; [by apply office_key_piece|done].
Qed.

(** ** The set of office keys *)

Section NewSet.
Context {A : Type} `{EqDecision A}.

Lemma Set_add_spec (set : list A) x :
  NoDup set →
  NoDup (Set_add set x) ∧ ∀ y, y ∈ Set_add set x ↔ y ∈ set ∨ y = x.
Proof.
  intros Hnd. unfold Set_add. destruct (decide (x ∈ set)) as [Hin|Hnot].
  - split; [done|]. intros y. split; [by left|]. by intros [?| ->].
  - split.
    + apply NoDup_app. split_and!; [done| |apply NoDup_singleton].
      intros y Hy ->%list_elem_of_singleton. done.
    + intros y. rewrite elem_of_app, list_elem_of_singleton. done.
Qed.

Lemma foldl_Set_add (values set : list A) :
  NoDup set →
  NoDup (foldl Set_add set values)
  ∧ ∀ y, y ∈ foldl Set_add set values ↔ y ∈ set ∨ y ∈ values.
Proof.
  revert set. induction values as [|x values IH]; intros set Hnd; simpl.
  - split; [done|]. intros y. rewrite elem_of_nil. tauto.
  - destruct (Set_add_spec set x Hnd) as [Hnd1 Hin1].
    destruct (IH _ Hnd1) as [Hnd2 Hin2]. split; [done|].
    intros y. rewrite Hin2, Hin1, elem_of_cons. tauto.
Qed.

Lemma new_Set_spec (values : list A) :
  NoDup (new_Set values) ∧ ∀ y, y ∈ new_Set values ↔ y ∈ values.
Proof.
  destruct (foldl_Set_add values [] (NoDup_nil_2)) as [Hnd Hin].
  split; [done|]. intros y. rewrite Hin, elem_of_nil. tauto.
Qed.
End NewSet.

Lemma office_keys_total ps :
  Forall office_is_text ps →
  ∃ keys, mapM (office_piece 0) ps = Some keys
          ∧ ∀ k, k ∈ keys ↔ ∃ p, p ∈ ps ∧ office_key p k.
Proof.
  induction 1 as [|p ps Hp _ (keys & Hkeys & Hin)].
  - exists []. split; [done|]. intros k. rewrite elem_of_nil.
    split; [done|]. intros (p & Hp & _). by apply elem_of_nil in Hp.
  - destruct (office_piece_key p Hp) as (k0 & Hk0 & Hkey0).
    exists (k0 :: keys). split.
    + cbn. rewrite Hk0. cbn. by rewrite Hkeys.
    + intros k. rewrite elem_of_cons, Hin. split.
      * intros [-> | (q & Hq & Hk)].
        -- exists p. split; [by left|done].
        -- exists q. split; [by right|done].
      * intros (q & Hq & Hk). apply elem_of_cons in Hq as [-> | Hq].
        -- left. apply office_key_piece in Hk. congruence.
        -- right. by exists q.
Qed.

Lemma dispatch_GetStatistics e st :
  dispatch GetStatistics e st
  = (st, default error_response (snd (get_statistics ∅ GetStatistics e st))).
Proof. reflexivity. Qed.

(** C4: when every record's [congressionalOffice] is text or absent,
    the statistics request answers 200 and [uniqueOffices] is the
    number of distinct office keys of the records: the length of a
    duplicate-free list that holds exactly the keys of the records, the
    key being the text before the first bar, the whole text without a
    bar, or the single undefined key shared by all records without the
    field. *)
Theorem uniqueOffices_counts_distinct_keys e st :
  Forall office_is_text (participants st) →
  ∃ s keys,
    dispatch GetStatistics e st = (st, json (BStats s))
    ∧ uniqueOffices s = length keys
    ∧ NoDup keys
    ∧ ∀ k, k ∈ keys ↔ ∃ p, p ∈ participants st ∧ office_key p k.
Proof.
  intros Htext.
  destruct (office_keys_total _ Htext) as (keys & Hkeys & Hin).
  destruct (new_Set_spec keys) as [Hnd Hset].
  rewrite dispatch_GetStatistics. unfold get_statistics. cbn [snd].
  rewrite Hkeys. cbn [mbind option_bind default].
  eexists _, (new_Set keys). split_and!; [reflexivity|done|done|].
  intros k. by rewrite Hset, Hin.
Qed.

Lemma uniqueOffices_counts_distinct_keys_witness :
  let ps : list object :=
    [ {["congressionalOffice" := JStr "12|Smith"]};
      {["congressionalOffice" := JStr "12|Jones|Jr"]};
      {["congressionalOffice" := JStr "Senate"]};
      ∅; {["name" := JStr "B"]} ] in
  let st := {| participants := ps; participantIdCounter := 6 |} in
  Forall office_is_text ps
  ∧ ∃ s, dispatch GetStatistics (Env "2024-05-01T10:00:00.000Z" 0 0) st
         = (st, json (BStats s))
         ∧ uniqueOffices s = 3%nat.
Proof.
  intros ps st.
  assert (H : Forall office_is_text ps).
  { each_item;
      first [ by left | right; eexists; reflexivity ]. }
  split; [exact H|].
  destruct (uniqueOffices_counts_distinct_keys
              (Env "2024-05-01T10:00:00.000Z" 0 0) st H)
    as (s & keys & Hs & Hn & _).
  exists s. split; [exact Hs|].
  rewrite dispatch_GetStatistics in Hs. injection Hs as <-. reflexivity.
Defined.

(** ** The average number of selected traits *)

Lemma foldl_totalTraits ps acc :
  foldl (fun sum p => sum + traits_selected p) acc ps
  = acc + foldl (fun sum p => sum + traits_selected p) 0 ps.
Proof.
  revert acc. induction ps as [|p ps IH]; intros acc; simpl; [lia|].
  rewrite (IH (acc + _)), (IH (0 + _)). lia.
Qed.

Lemma totalTraits_cons p ps :
  totalTraits (p :: ps) = traits_selected p + totalTraits ps.
Proof. unfold totalTraits. simpl. by rewrite foldl_totalTraits. Qed.

Lemma traits_selected_sequence p :
  traits_are_sequence p →
  traits_selected p = Z.of_nat (sequence_length (get p "selectedTraits")).
Proof. unfold traits_selected. by intros [-> | [l ->]]. Qed.

Lemma totalTraits_total_length ps :
  Forall traits_are_sequence ps → totalTraits ps = Z.of_nat (total_length ps).
Proof.
  induction 1 as [|p ps Hp _ IH]; [done|].
  rewrite totalTraits_cons, IH, (traits_selected_sequence p Hp).
  unfold total_length. simpl. lia.
Qed.

Lemma Math_round_nearest x : nearest_integer x (Math_round x).
Proof.
  unfold nearest_integer, Math_round.
  pose proof (Qfloor_le (Qplus x (Qmake 1 2))) as Hle.
  pose proof (Qlt_floor (Qplus x (Qmake 1 2))) as Hlt.
  rewrite inject_Z_plus in Hlt. change (inject_Z 1) with 1%Q in Hlt.
  split; lra.
Qed.

Lemma nearest_integer_unique x r1 r2 :
  nearest_integer x r1 → nearest_integer x r2 → r1 = r2.
Proof.
  intros [H1 H2] [H3 H4].
  assert (Qlt (inject_Z r1) (Qplus (inject_Z r2) 1)) as Ha by lra.
  assert (Qlt (inject_Z r2) (Qplus (inject_Z r1) 1)) as Hb by lra.
  change 1%Q with (inject_Z 1) in Ha, Hb.
  rewrite <- (inject_Z_plus r2 1), <- Zlt_Qlt in Ha.
  rewrite <- (inject_Z_plus r1 1), <- Zlt_Qlt in Hb.
  lia.
Qed.


(** C5: when every record's [congressionalOffice] is text or absent
    and every [selectedTraits] a sequence or absent, the statistics
    request answers 200 and [avgTraitsSelected] is 0 for the empty
    collection and otherwise the integer nearest to the mean of the
    sequence lengths (absent counted 0), the upper one at a tie and the
    only integer with that property.  Two records with sequences of
    lengths 2 and 1 give 2. *)
Theorem avgTraitsSelected_is_rounded_mean :
  (∀ e st,
     Forall office_is_text (participants st) →
     Forall traits_are_sequence (participants st) →
     ∃ s, dispatch GetStatistics e st = (st, json (BStats s))
          ∧ (participants st = [] → avgTraitsSelected s = 0)
          ∧ (participants st ≠ [] →
             nearest_integer
               (mean (total_length (participants st)) (length (participants st)))
               (avgTraitsSelected s)
             ∧ ∀ r, nearest_integer
                      (mean (total_length (participants st))
                            (length (participants st))) r →
                    r = avgTraitsSelected s))
  ∧ (∀ e1 e2 e,
       let st := fst (serve (Inserts [(spec_example_A, e1); (spec_example_B, e2)])
                            initial_store) in
       ∃ s, dispatch GetStatistics e st = (st, json (BStats s))
            ∧ totalParticipants s = 2%nat
            ∧ avgTraitsSelected s = 2).
Proof.
  split.
  - intros e st Htext Hseq.
    destruct (office_keys_total _ Htext) as (keys & Hkeys & _).
    rewrite dispatch_GetStatistics. unfold get_statistics. cbn [snd].
    rewrite Hkeys. cbn [mbind option_bind default].
    eexists. split; [reflexivity|]. cbn [avgTraitsSelected]. split.
    + by intros ->.
    + intros Hne.
      assert (Nat.ltb 0 (length (participants st)) = true) as ->.
      { apply Nat.ltb_lt. destruct (participants st); [done|simpl; lia]. }
      rewrite (totalTraits_total_length _ Hseq). fold (mean (total_length (participants st)) (length (participants st))).
      split; [apply Math_round_nearest|].
      intros r Hr. eapply nearest_integer_unique; [exact Hr|].
      apply Math_round_nearest.
  - intros e1 e2 e st. eexists. split; [reflexivity|]. split; reflexivity.
Qed.

Lemma avgTraitsSelected_is_rounded_mean_witness :
  let ps : list object :=
    [ {["selectedTraits" := JArr [JStr "x"; JStr "y"; JStr "z"]]};
      {["congressionalOffice" := JStr "12|Smith"]};
      {["selectedTraits" := JArr [JStr "x"]]} ] in
  let st := {| participants := ps; participantIdCounter := 4 |} in
  Forall office_is_text ps
  ∧ Forall traits_are_sequence ps
  ∧ ps ≠ []
  ∧ ∃ s, dispatch GetStatistics (Env "2024-05-01T10:00:00.000Z" 0 0) st
         = (st, json (BStats s))
         ∧ nearest_integer (mean 4 3) (avgTraitsSelected s)
         ∧ avgTraitsSelected s = 1.
Proof.
  intros ps st.
  assert (H1 : Forall office_is_text ps).
  { each_item;
      first [ by left | right; eexists; reflexivity ]. }
  assert (H2 : Forall traits_are_sequence ps).
  { each_item;
      first [ by left | right; eexists; reflexivity ]. }
  assert (H3 : ps ≠ []) by done.
  split_and!; [exact H1|exact H2|exact H3|].
  destruct (proj1 avgTraitsSelected_is_rounded_mean
              (Env "2024-05-01T10:00:00.000Z" 0 0) st H1 H2)
    as (s & Hs & _ & Hmean).
  exists s. split; [exact Hs|]. split; [exact (proj1 (Hmean H3))|].
  rewrite dispatch_GetStatistics in Hs. injection Hs as <-. reflexivity.
Defined.

(** ** Distributions *)

Lemma distribution_keys field ps :
  distribution field ps = foldl tally ∅ (tally_keys field ps).
Proof.
  unfold distribution, tally_keys. generalize (∅ : gmap string value).
  induction ps as [|p ps IH]; intros d; [done|]. simpl. apply IH.
Qed.

Lemma tally_other dist key k : key ≠ k → tally dist key !! k = dist !! k.
Proof.
  intros Hne. unfold tally. destruct (dist !! key) as [x|].
  - by rewrite lookup_insert_ne.
  - destruct (String.eqb key "__proto__"); [done|].
    destruct (bool_decide _); by rewrite lookup_insert_ne.
Qed.


Lemma tally_undefined dist n :
  counts (dist !! "undefined") n →
  counts (tally dist "undefined" !! "undefined") (n + 1).
Proof.
  intros [[H ->] | [H Hn]]; unfold tally; rewrite H.
  - right. change (String.eqb "undefined" "__proto__") with false. cbn iota.
    assert (bool_decide ("undefined" ∈ prototype_functions) = false) as ->
      by (by vm_compute).
    by rewrite lookup_insert_eq.
  - right. rewrite lookup_insert_eq. cbn [truthy plus_one].
    destruct (Z.eqb_spec n 0) as [->|_]; [lia|]. split; [done|lia].
Qed.

Lemma foldl_tally_undefined keys dist n :
  counts (dist !! "undefined") n →
  counts (foldl tally dist keys !! "undefined")
         (n + Z.of_nat (length (List.filter (fun k => String.eqb k "undefined") keys))).
Proof.
  revert dist n. induction keys as [|k keys IH]; intros dist n H.
  - simpl. by rewrite Z.add_0_r.
  - cbn [foldl List.filter]. destruct (String.eqb_spec k "undefined") as [->|Hne].
    + cbn [length]. rewrite Nat2Z.inj_succ.
      replace (n + Z.succ _) with ((n + 1) + Z.of_nat (length (List.filter (fun k => String.eqb k "undefined") keys))) by lia.
      apply IH. by apply tally_undefined.
    + apply IH. by rewrite tally_other.
Qed.

Lemma render_delete field (p : object) : render (get (delete field p) field) = "undefined".
Proof. unfold get. by rewrite lookup_delete_eq. Qed.

Lemma render_literal field (p : object) :
  render (get (<[field := JStr "undefined"]> p) field) = "undefined".
Proof. unfold get. by rewrite lookup_insert_eq. Qed.

(** C10: a read of an absent field and the literal string "undefined"
    convert to the same property key, "undefined".  A distribution is
    the same whether a record lacks the field or holds that string, the
    cell "undefined" counts all records whose key is "undefined", and
    in the statistics of a store with one record of each kind both
    distributions are the single cell "undefined" with count 2. *)
Theorem absent_and_undefined_literal_share_a_key :
  render None = "undefined"
  ∧ render (Some (JStr "undefined")) = "undefined"
  ∧ (∀ field ps p qs,
       distribution field (ps ++ delete field p :: qs)
       = distribution field (ps ++ <[field := JStr "undefined"]> p :: qs))
  ∧ (∀ field ps,
       distribution field ps !! "undefined"
       = if undefined_count field ps =? 0 then None
         else Some (JNum (undefined_count field ps)))
  ∧ (∀ e,
       let literal : object :=
         <["audienceProfile" := JStr "undefined"]>
           (<["primaryConcern" := JStr "undefined"]> ∅) in
       let st := {| participants := [∅; literal]; participantIdCounter := 3 |} in
       ∃ s, dispatch GetStatistics e st = (st, json (BStats s))
            ∧ profileDistribution s = {["undefined" := JNum 2]}
            ∧ concernDistribution s = {["undefined" := JNum 2]}).
Proof.
  split_and!; [done|done| | |].
  - intros field ps p qs. rewrite !distribution_keys. unfold tally_keys.
    rewrite !map_app. cbn [map]. by rewrite render_delete, render_literal.
  - intros field ps. rewrite distribution_keys. unfold undefined_count.
    pose proof (foldl_tally_undefined (tally_keys field ps) ∅ 0) as H.
    rewrite Z.add_0_l in H.
    destruct H as [[-> ->] | [-> Hpos]]; [by left| |].
    + done.
    + destruct (Z.eqb_spec (Z.of_nat (length (List.filter (fun k => String.eqb k "undefined") (tally_keys field ps)))) 0); [lia|done].
  - intros e literal st. eexists. split; [reflexivity|].
    split; apply map_eq; intros k; vm_compute; reflexivity.
Qed.

(** ** The Office column of the CSV export *)

Lemma append_empty (s : string) : s ++ "" = s.
Proof.
  induction s as [|a s IH]; [done|].
  change (String a (s ++ "") = String a s). by rewrite IH.
Qed.

Lemma str_split_second_piece k d rest :
  has_char "|" k = false → has_char "|" d = false → ends_piece rest →
  str_split "|" (k ++ String "|" (d ++ rest)) !! 1%nat = Some d.
Proof.
  intros Hk Hd Hrest. rewrite str_split_first_sep by done.
  destruct Hrest as [-> | [more ->]].
  - rewrite append_empty. by rewrite str_split_no_sep.
  - by rewrite str_split_first_sep.
Qed.

Lemma office_of_absent p :
  get p "congressionalOffice" = None → office p = Some "Unknown".
Proof. intros H. unfold office, office_piece. by rewrite H. Qed.

Lemma office_without_bar p s :
  get p "congressionalOffice" = Some (JStr s) → has_char "|" s = false →
  office p = Some "Unknown".
Proof.
  intros H Hs. unfold office, office_piece. rewrite H.
  by rewrite str_split_no_sep.
Qed.

Lemma office_second_piece p k d rest :
  get p "congressionalOffice" = Some (JStr (k ++ String "|" (d ++ rest))) →
  has_char "|" k = false → has_char "|" d = false → ends_piece rest →
  office p = Some (if String.eqb d "" then "Unknown" else d).
Proof.
  intros H Hk Hd Hrest. unfold office, office_piece. rewrite H.
  cbn [fmap option_fmap option_map].
  rewrite str_split_second_piece by done.
  by destruct d.
Qed.

(** C6 (as amended): the Office column of a record's row is the
    second bar-separated piece of [congressionalOffice], the text
    between the first bar and the next bar or the end, and it is the
    text Unknown whenever that piece is missing or empty: when the
    field is absent, when the text has no bar, and when nothing stands
    between the first bar and the next.  The row carries it quoted as
    its third column. *)
Theorem office_column_is_second_piece (p : object) :
  (get p "congressionalOffice" = None → office p = Some "Unknown")
  ∧ (∀ s, get p "congressionalOffice" = Some (JStr s) →
          has_char "|" s = false →
          office p = Some "Unknown")
  ∧ (∀ k d rest,
       get p "congressionalOffice" = Some (JStr (k ++ String "|" (d ++ rest))) →
       has_char "|" k = false → has_char "|" d = false → ends_piece rest →
       office p = Some (if String.eqb d "" then "Unknown" else d))
  ∧ (∀ row, csv_row p = Some row →
       ∃ column rest,
         office p = Some column
         ∧ row = render (get p "id") ++ "," ++ quoted (render (get p "name"))
                 ++ "," ++ quoted column ++ "," ++ rest).
Proof.
  split_and!.
  - apply office_of_absent.
  - apply office_without_bar.
  - apply office_second_piece.
  - intros row Hrow. unfold csv_row in Hrow.
    destruct (office p) as [column|]; [|done]. cbn [mbind option_bind] in Hrow.
    destruct (joined ", " (get p "adjectives")) as [a|]; [|done].
    destruct (joined "; " (get p "priorities")) as [b|]; [|done].
    destruct (joined ", " (get p "selectedTraits")) as [c|]; [|done].
    cbn [mbind option_bind] in Hrow. injection Hrow as <-.
    eexists column, _. split; [done|]. reflexivity.
Qed.

Lemma office_column_is_second_piece_witness :
  let absent : object := {["name" := JStr "A"]} in
  let plain : object := {["congressionalOffice" := JStr "Senate"]} in
  let two : object := {["congressionalOffice" := JStr "12|Smith"]} in
  let three : object := {["congressionalOffice" := JStr "12|Smith|Jr"]} in
  let empty : object := {["congressionalOffice" := JStr "12|"]} in
  office absent = Some "Unknown"
  ∧ office plain = Some "Unknown"
  ∧ office two = Some "Smith"
  ∧ office three = Some "Smith"
  ∧ office empty = Some "Unknown"
  ∧ ∃ column rest, office three = Some column
      ∧ csv_row three
        = Some ("undefined," ++ quoted "undefined" ++ "," ++ quoted column
                ++ "," ++ rest).
Proof.
  intros absent plain two three empty. split_and!.
  - apply (proj1 (office_column_is_second_piece absent)). reflexivity.
  - apply (proj1 (proj2 (office_column_is_second_piece plain)) "Senate");
      reflexivity.
  - apply (proj1 (proj2 (proj2 (office_column_is_second_piece two)))
             "12" "Smith" ""); [reflexivity..|by left].
  - apply (proj1 (proj2 (proj2 (office_column_is_second_piece three)))
             "12" "Smith" "|Jr"); [reflexivity..|right; by eexists].
  - apply (proj1 (proj2 (proj2 (office_column_is_second_piece empty)))
             "12" "" ""); [reflexivity..|by left].
  - destruct (proj2 (proj2 (proj2 (office_column_is_second_piece three)))
                _ eq_refl) as (column & rest & Hc & Hrow).
    exists column, rest. split; [exact Hc|]. exact (f_equal Some Hrow).
Defined.

(** C6 (the claim as stated fails): for [congressionalOffice]
    "12|Smith|Jr" the column is "Smith", not the text "Smith|Jr" after
    the first bar; and for "Senate", a field that is present, the
    column is Unknown. *)
Lemma office_column_not_text_after_first_bar :
  let three : object := {["congressionalOffice" := JStr "12|Smith|Jr"]} in
  let plain : object := {["congressionalOffice" := JStr "Senate"]} in
  get three "congressionalOffice" = Some (JStr ("12" ++ String "|" "Smith|Jr"))
  ∧ has_char "|" "12" = false
  ∧ office three = Some "Smith"
  ∧ office three ≠ Some "Smith|Jr"
  ∧ get plain "congressionalOffice" ≠ None
  ∧ office plain = Some "Unknown".
Proof. by split_and!. Qed.

(** * Further properties of the handlers *)

(** ** Lookup by a printed id *)

Lemma find_by_number ps a k :
  ids ps = map (fun i => Some (JNum i)) (seqZ a (Z.of_nat (length ps))) →
  List.find (id_is (Some k)) ps
  = if decide (a ≤ k < a + Z.of_nat (length ps))
    then ps !! Z.to_nat (k - a) else None.
Proof.
  revert a. induction ps as [|p ps IH]; intros a Hids.
  - simpl. case_decide; [lia|done].
  - cbn [length] in Hids. rewrite Nat2Z.inj_succ, seqZ_cons in Hids by lia.
    cbn [ids map] in Hids. injection Hids as Hp Hrest.
    replace (Z.pred (Z.succ (Z.of_nat (length ps)))) with (Z.of_nat (length ps))
      in Hrest by lia.
    specialize (IH (Z.succ a) Hrest).
    cbn [List.find]. unfold id_is at 1. rewrite Hp.
    destruct (Z.eqb_spec a k) as [->|Hne].
    + rewrite decide_True by (cbn [length]; lia).
      by replace (k - k) with 0 by lia.
    + rewrite IH. cbn [length].
      destruct (decide (Z.succ a ≤ k < Z.succ a + Z.of_nat (length ps)))
        as [Hin|Hout].
      * rewrite decide_True by lia.
        replace (Z.to_nat (k - a)) with (S (Z.to_nat (k - Z.succ a))) by lia.
        done.
      * by rewrite decide_False by lia.
Qed.

Lemma to_double_large n :
  2 ^ 53 < Z.abs n →
  2 ^ 53 ≤ Z.abs (to_double n) ∧ (n < 0 → to_double n < 0).
Proof.
  intros Hn. unfold to_double.
  destruct (Z.leb_spec (Z.abs n) (2 ^ 53)) as [|_]; [lia|].
  set (a := Z.abs n) in *. set (e := Z.log2 a - 52).
  assert (Ha : 0 < a) by lia.
  destruct (Z.log2_spec a Ha) as [Hlo _].
  assert (Hlog : 53 ≤ Z.log2 a).
  { rewrite <- (Z.log2_pow2 53) by lia. apply Z.log2_le_mono. lia. }
  assert (He : 1 ≤ e) by (unfold e; lia).
  assert (Hpow : 2 ≤ 2 ^ e).
  { change 2 with (2 ^ 1) at 1. apply Z.pow_le_mono_r; lia. }
  assert (Hq : 2 ^ 52 ≤ a / 2 ^ e).
  { apply Z.div_le_lower_bound; [lia|].
    rewrite <- Z.pow_add_r by lia.
    replace (e + 52) with (Z.log2 a) by (unfold e; lia). done. }
  set (q := a / 2 ^ e) in *.
  set (q' := if a mod 2 ^ e <? 2 ^ (e - 1) then q
             else if 2 ^ (e - 1) <? a mod 2 ^ e then q + 1
             else if Z.even q then q else q + 1).
  assert (Hq' : q ≤ q') by (unfold q'; repeat case_match; lia).
  assert (Hprod : 2 ^ 53 ≤ q' * 2 ^ e).
  { change (2 ^ 53) with (2 ^ 52 * 2). apply Z.mul_le_mono_nonneg; lia. }
  assert (Hsgn : (0 < n ∧ Z.sgn n = 1) ∨ (n < 0 ∧ Z.sgn n = -1))
    by (unfold a in Ha; lia).
  destruct Hsgn as [[Hpos ->] | [Hneg ->]]; split; lia.
Qed.

(** In a store whose records carry the ids 1..n in order, GET
    /api/participants/k for the decimal text of an integer k answers
    200 with the k-th record of the collection when 1 <= k <= n and 404
    Not-Found for every other k.  This holds for every k up to 2^53 in
    magnitude, and for every k at all when the store has fewer than
    2^53 records. *)
Theorem lookup_by_number_is_indexing k e st :
  numbered st →
  Z.abs k ≤ 2 ^ 53 ∨ Z.of_nat (length (participants st)) < 2 ^ 53 →
  dispatch (GetById (number_to_string k)) e st
  = (st, match (if decide (1 ≤ k) then participants st !! Z.to_nat (k - 1)
                else None) with
         | Some p => json (BRecord p)
         | None => not_found
         end).
Proof.
  intros [Hids _] Hsize. destruct (number_to_string_nonempty k) as (c & t & Hk).
  unfold GetById. rewrite Hk, dispatch_by_id, <- Hk, parseInt_number_to_string.
  rewrite (find_by_number _ 1 (to_double k)) by exact Hids.
  destruct (Z.le_gt_cases (Z.abs k) (2 ^ 53)) as [Hsafe|Hbig].
  - rewrite to_double_safe by done.
    destruct (decide (1 ≤ k)) as [H1|H1].
    + destruct (decide (1 ≤ k < 1 + Z.of_nat (length (participants st))))
        as [H2|H2]; [done|].
      rewrite (lookup_ge_None_2 (participants st)) by lia. done.
    + by rewrite decide_False by lia.
  - destruct Hsize as [Hsafe|Hsize]; [lia|].
    destruct (to_double_large k Hbig) as [Habs Hneg].
    rewrite decide_False by lia.
    destruct (decide (1 ≤ k)) as [H1|H1]; [|done].
    rewrite (lookup_ge_None_2 (participants st)) by lia. done.
Qed.

Lemma lookup_by_number_is_indexing_witness :
  let e := Env "2024-05-01T10:00:00.000Z" 0 0 in
  let st := fst (serve (Inserts [({["name" := JStr "A"]}, e);
                                 ({["name" := JStr "B"]}, e)]) initial_store) in
  numbered st
  ∧ dispatch (GetById "2") e st
    = (st, json (BRecord (new_participant 2 {["name" := JStr "B"]} (iso_now e))))
  ∧ dispatch (GetById "3") e st = (st, not_found).
Proof.
  intros e st.
  assert (H : numbered st) by (split; reflexivity).
  assert (H2 : Z.abs 2 ≤ 2 ^ 53 ∨ Z.of_nat (length (participants st)) < 2 ^ 53)
    by (left; vm_compute; discriminate).
  assert (H3 : Z.abs 3 ≤ 2 ^ 53 ∨ Z.of_nat (length (participants st)) < 2 ^ 53)
    by (left; vm_compute; discriminate).
  split; [exact H|]. split.
  - exact (lookup_by_number_is_indexing 2 e st H H2).
  - exact (lookup_by_number_is_indexing 3 e st H H3).
Defined.

Lemma leading_digits_stop acc c rest s :
  ends_decimal c →
  leading_digits 10 acc (s ++ String c rest) = leading_digits 10 acc s.
Proof.
  intros Hc. revert acc. induction s as [|a s IH]; intros acc.
  - change ("" ++ String c rest) with (String c rest).
    cbn [leading_digits]. unfold ends_decimal in Hc.
    destruct (digit_value c) as [d|]; [|done].
    by destruct (Z.ltb_spec d 10); [lia|].
  - change (String a s ++ String c rest) with (String a (s ++ String c rest)).
    cbn [leading_digits]. destruct (digit_value a) as [d|]; [|done].
    destruct (d <? 10); [apply IH|done].
Qed.

Lemma to_uint_no_leading_zero p d : Pos.to_uint p ≠ Decimal.D0 d.
Proof.
  intros H.
  pose proof (DecimalPos.Unsigned.to_of (Pos.to_uint p)) as Hnorm.
  rewrite DecimalPos.Unsigned.of_to in Hnorm. cbn [N.to_uint] in Hnorm.
  rewrite H in Hnorm. unfold Decimal.unorm in Hnorm.
  destruct (Decimal.nzhead (Decimal.D0 d)) eqn:Hz;
    try (by apply DecimalFacts.nzhead_nonzero in Hz);
    try discriminate Hnorm.
  injection Hnorm as Hd. subst d.
  by apply (DecimalPos.Unsigned.to_uint_nonzero p).
Qed.

Lemma signed_digits_then d suffix :
  d ≠ Decimal.Nil → (∀ d', d ≠ Decimal.D0 d') →
  signed_digits (NilEmpty.string_of_uint d ++ suffix)
  = Z.mul 1 <$> leading_digits 10 (Some 0) (NilEmpty.string_of_uint d ++ suffix).
Proof.
  destruct d as [|d|d|d|d|d|d|d|d|d|d]; intros Hnil Hzero;
    [done|by destruct (Hzero d)|reflexivity..].
Qed.

Lemma mathInt_number_then k c rest :
  1 ≤ k → ends_decimal c →
  mathInt (number_to_string k ++ String c rest) = Some k.
Proof.
  intros Hk Hc.
  transitivity (mathInt (number_to_string k));
    [|apply mathInt_number_to_string].
  unfold number_to_string. destruct k as [|p|p]; [lia| |lia].
  cbn [Z.to_int NilZero.string_of_int].
  pose proof (DecimalPos.Unsigned.to_uint_nonnil p) as Hnil.
  rewrite string_of_uint_nonnil by done.
  rewrite mathInt_digits by done. unfold mathInt.
  destruct (string_of_uint_head _ Hnil) as (c0 & r0 & Hs & Hc0 & Hw).
  rewrite Hs.
  change (String c0 r0 ++ String c rest) with (String c0 (r0 ++ String c rest)).
  rewrite skip_white_space_ascii by done.
  change (String c0 (r0 ++ String c rest)) with (String c0 r0 ++ String c rest).
  rewrite <- Hs.
  rewrite signed_digits_then by (done || apply to_uint_no_leading_zero).
  by rewrite leading_digits_stop.
Qed.

Lemma parseInt_number_then k c rest :
  1 ≤ k → ends_decimal c →
  parseInt (number_to_string k ++ String c rest) = Some (to_double k).
Proof. intros Hk Hc. unfold parseInt. by rewrite mathInt_number_then. Qed.

(** GET /api/participants/:id reads the leading decimal digits of the
    id and ignores what follows them: for k >= 1, the text of k
    followed by any text that does not begin with a digit is answered
    as the text of k alone ("12abc" and "12.5" as "12"). *)
Theorem lookup_ignores_text_after_number k c rest e st :
  1 ≤ k → ends_decimal c →
  dispatch (GetById (number_to_string k ++ String c rest)) e st
  = dispatch (GetById (number_to_string k)) e st.
Proof.
  intros Hk Hc. destruct (number_to_string_nonempty k) as (a & t & Ha).
  pose proof (parseInt_number_then k c rest Hk Hc) as Hparse.
  pose proof (parseInt_number_to_string k) as Hprint.
  unfold GetById. rewrite Ha in *.
  change (String a t ++ String c rest) with (String a (t ++ String c rest)) in *.
  by rewrite !dispatch_by_id, Hparse, Hprint.
Qed.

Lemma lookup_ignores_text_after_number_witness :
  let e := Env "2024-05-01T10:00:00.000Z" 0 0 in
  let st := fst (serve (Inserts [({["name" := JStr "A"]}, e)]) initial_store) in
  1 ≤ 1 ∧ ends_decimal "a"
  ∧ dispatch (GetById "1abc") e st = dispatch (GetById "1") e st
  ∧ snd (dispatch (GetById "1abc") e st)
    = json (BRecord (new_participant 1 {["name" := JStr "A"]} (iso_now e))).
Proof.
  intros e st.
  assert (H1 : 1 ≤ 1) by lia.
  assert (H2 : ends_decimal "a") by (by vm_compute).
  split; [exact H1|]. split; [exact H2|].
  pose proof (lookup_ignores_text_after_number 1 "a" "bc" e st H1 H2) as H.
  split; [exact H|]. reflexivity.
Defined.

(** ** The router *)

(** A property of the answer holds once it holds for the no-route
    answer and for every route that can take the request. *)
Lemma dispatch_in_rule (Q : store * response → Prop) rs req e st :
  Q (st, no_route) →
  Forall (fun r =>
            method_eqb (route_method r) (req_method req) = true →
            ∀ ps, match_path (route_pattern r) (req_path req) ∅ = Some ps →
                  Q (fst (route_handler r ps req e st),
                     default error_response
                       (snd (route_handler r ps req e st)))) rs →
  Q (dispatch_in rs req e st).
Proof.
  intros Hnone. induction 1 as [|r rs Hr _ IH]; [done|].
  cbn [dispatch_in]. destruct (method_eqb _ _); [|done].
  destruct (match_path _ _ _) as [ps|] eqn:Hp; [|done].
  specialize (Hr eq_refl ps eq_refl).
  by destruct (route_handler r ps req e st).
Qed.




Ltac by_route :=
  apply dispatch_in_rule;
  [ | unfold routes; each_item;
      cbn [route_method route_pattern route_handler] ].

(** Unfolds the handler of a route and splits on what it answers. *)
Ltac answer_cases :=
  unfold get_all_participants, get_participant_by_id, create_participant,
    get_statistics, get_by_office, get_by_profile, search_participants,
    delete_all_participants, export_csv, health_check;
  cbn [snd fst];
  repeat match goal with
         | |- context [mbind _ ?x] => destruct x; cbn [mbind option_bind]
         | |- context [List.find ?f ?l] => destruct (List.find f l)
         | |- context [req_query ?r !! ?k] =>
             destruct (req_query r !! k) as [[|]|]
         end;
  cbn [snd fst from_option]; unfold id, json, error_response;
  cbn [status payload].

Lemma dispatch_POST_participants query fields e st :
  dispatch (Request POST ["api"; "participants"] query fields) e st
  = dispatch (Insert fields) e st.
Proof. reflexivity. Qed.



(** ** Runs of the server *)

Lemma after_answer_dispatch req e st :
  participants (fst (dispatch req e st))
  = after_answer (participants st) (snd (dispatch req e st)).
Proof.
  unfold dispatch. by_route; [done|..]; intros _ ps _; answer_cases;
    unfold after_answer; cbn [payload status participants]; done.
Qed.

(** After any run, from any store, the collection is what the answers
    tell: each 201 answer added its record at the end and each answer
    of the bulk delete emptied it.  So the collection holds the records
    created since the last clear, in creation order. *)
Theorem collection_follows_answers reqs st :
  participants (fst (serve reqs st))
  = foldl after_answer (participants st) (snd (serve reqs st)).
Proof.
  revert st. induction reqs as [|[req e] reqs IH]; intros st; [done|].
  cbn [serve]. pose proof (after_answer_dispatch req e st) as H.
  destruct (dispatch req e st) as [st1 r]. specialize (IH st1).
  destruct (serve reqs st1) as [st2 answers]. cbn [fst snd foldl] in *.
  by rewrite IH, H.
Qed.

Lemma stamped_new_participant counter fields now :
  stamped (new_participant counter fields now).
Proof.
  split.
  - rewrite new_participant_id. by eexists.
  - exists now. apply new_participant_timestamp.
Qed.

Lemma well_kept_step req e st :
  well_kept st → well_kept (fst (dispatch req e st)).
Proof.
  intros [Hc Hs]. destruct (dispatch_step req e st) as [-> | [-> | ->]].
  - by split.
  - split; [done|constructor].
  - split; cbn [participants participantIdCounter].
    + rewrite length_app. cbn [length]. lia.
    + apply Forall_app. split; [done|].
      constructor; [apply stamped_new_participant|constructor].
Qed.

(** Whatever requests were served since the start, with whatever
    bodies, the counter is one more than the number of records held,
    and every record held has an [id] and a text [timestamp]. *)
Theorem counter_and_stamps_kept reqs :
  well_kept (fst (serve reqs initial_store)).
Proof.
  assert (H : ∀ st, well_kept st → well_kept (fst (serve reqs st))).
  { induction reqs as [|[req e] reqs IH]; intros st Hst; [done|].
    cbn [serve]. pose proof (well_kept_step req e st Hst) as H1.
    destruct (dispatch req e st) as [st1 r]. specialize (IH st1 H1).
    by destruct (serve reqs st1). }
  apply H. split; [done|constructor].
Qed.

(** ** Creating keeps the client's fields *)

(** POST /api/participants answers 201 with the stored record.  The
    record has the clock's timestamp, whatever the body said, and every
    other field of the body except [id] verbatim, an absent field
    staying absent; it is appended after the records already held,
    which stay as they were, and the counter grows by one. *)
Theorem insert_keeps_fields_and_appends fields e st :
  ∃ p,
    dispatch (Insert fields) e st
    = ({| participants := (participants st ++ [p])%list;
          participantIdCounter := participantIdCounter st + 1 |},
       {| status := 201; payload := BRecord p |})
    ∧ get p "timestamp" = Some (JStr (iso_now e))
    ∧ (∀ k, k ≠ "id" → k ≠ "timestamp" → get p k = fields !! k)
    ∧ (∀ i q, participants st !! i = Some q →
              participants (fst (dispatch (Insert fields) e st)) !! i = Some q)
    ∧ last (participants (fst (dispatch (Insert fields) e st))) = Some p.
Proof.
  exists (new_participant (participantIdCounter st) fields (iso_now e)).
  rewrite dispatch_Insert. cbn zeta. cbn [fst participants]. split_and!.
  - done.
  - apply new_participant_timestamp.
  - intros k Hid Hts. by apply new_participant_field.
  - intros i q Hq. by apply lookup_app_l_Some.
  - apply last_snoc.
Qed.

Lemma insert_keeps_fields_and_appends_witness :
  let fields : object :=
    <["name" := JStr "A"]> (<["timestamp" := JStr "1999-12-31"]> ∅) in
  let e := Env "2024-05-01T10:00:00.000Z" 0 0 in
  ∃ p, snd (dispatch (Insert fields) e initial_store)
       = {| status := 201; payload := BRecord p |}
       ∧ get p "name" = Some (JStr "A")
       ∧ get p "timestamp" = Some (JStr "2024-05-01T10:00:00.000Z").
Proof.
  intros fields e.
  destruct (insert_keeps_fields_and_appends fields e initial_store)
    as (p & Hp & Hts & Hk & _).
  exists p. split; [by rewrite Hp|]. split; [|exact Hts].
  rewrite (Hk "name") by done. reflexivity.
Defined.

(** ** The office and profile filters *)

Lemma array_filter_total {A} (f : A → option bool) (g : A → bool) l :
  Forall (fun x => f x = Some (g x)) l →
  array_filter f l = Some (List.filter g l).
Proof.
  induction 1 as [|x l Hx _ IH]; [done|].
  cbn [array_filter List.filter]. rewrite Hx, IH. cbn. by destruct (g x).
Qed.

Lemma array_filter_None {A} (f : A → option bool) l :
  array_filter f l = None ↔ Exists (fun x => f x = None) l.
Proof.
  induction l as [|x l IH].
  - split; [done|]. by intros H%Exists_nil.
  - cbn [array_filter]. rewrite Exists_cons. destruct (f x) as [b|]; cbn.
    + destruct (array_filter f l) as [kept|]; cbn.
      * split; [done|]. intros [?|H]; [done|]. by apply IH in H.
      * split; [|done]. intros _. right. by apply IH.
    + split; [by left|done].
Qed.

Lemma Exists_equiv {A} (P Q : A → Prop) l :
  (∀ x, P x ↔ Q x) → Exists P l ↔ Exists Q l.
Proof.
  intros H. split; intros HE; (eapply Exists_impl; [exact HE|]);
    intros x; apply H.
Qed.

Lemma filter_sublist {A} (g : A → bool) l : sublist (List.filter g l) l.
Proof.
  induction l as [|x l IH]; [constructor|].
  cbn [List.filter]. destruct (g x); by constructor.
Qed.

Lemma dispatch_FilterByOffice c t e st :
  dispatch (FilterByOffice (String c t)) e st
  = (st, default error_response
           (found ← array_filter (office_includes (String c t)) (participants st);
            Some (json (BRecords found)))).
Proof.
  unfold dispatch, routes, FilterByOffice. cbn -[get_by_office].
  unfold get_by_office. by rewrite lookup_insert_eq.
Qed.

Lemma dispatch_FilterByProfile c t e st :
  dispatch (FilterByProfile (String c t)) e st
  = (st, json (BRecords (List.filter (profile_is (String c t)) (participants st)))).
Proof.
  unfold dispatch, routes, FilterByProfile. cbn -[get_by_profile].
  unfold get_by_profile. by rewrite lookup_insert_eq.
Qed.

Lemma office_includes_text text p :
  office_is_text p → office_includes text p = Some (office_has text p).
Proof. unfold office_includes, office_has. by intros [-> | [s ->]]. Qed.

Lemma office_has_spec text p :
  office_has text p = true
  ↔ ∃ s before after,
      get p "congressionalOffice" = Some (JStr s)
      ∧ s = before ++ text ++ after.
Proof.
  unfold office_has. split.
  - destruct (get p "congressionalOffice") as [[| | |s|]|]; try done.
    intros (before & after & H)%str_includes_spec. by exists s, before, after.
  - intros (s & before & after & -> & H). apply str_includes_spec. eauto.
Qed.

(** GET /api/participants/office/:office on a store whose
    [congressionalOffice] fields are text or absent answers 200 with
    the records whose field contains the given text, case-sensitively,
    in collection order; a record without the field is never among
    them. *)
Theorem office_filter_finds_substring c t e st :
  Forall office_is_text (participants st) →
  ∃ found,
    dispatch (FilterByOffice (String c t)) e st = (st, json (BRecords found))
    ∧ sublist found (participants st)
    ∧ (∀ p, p ∈ found ↔
            p ∈ participants st
            ∧ ∃ s before after,
                get p "congressionalOffice" = Some (JStr s)
                ∧ s = before ++ String c t ++ after)
    ∧ (∀ p, get p "congressionalOffice" = None → p ∉ found).
Proof.
  intros Htext. exists (List.filter (office_has (String c t)) (participants st)).
  assert (Hin : ∀ p, p ∈ List.filter (office_has (String c t)) (participants st)
                     ↔ p ∈ participants st ∧ office_has (String c t) p = true).
  { intros p. by rewrite list_elem_of_In, filter_In, <- list_elem_of_In. }
  split_and!.
  - rewrite dispatch_FilterByOffice.
    rewrite (array_filter_total _ (office_has (String c t))); [done|].
    eapply Forall_impl; [exact Htext|]. intros p Hp.
    by apply office_includes_text.
  - apply filter_sublist.
  - intros p. by rewrite Hin, office_has_spec.
  - intros p Hp [_ H]%Hin. unfold office_has in H. by rewrite Hp in H.
Qed.

Lemma office_filter_finds_substring_witness :
  let smith : object := {["congressionalOffice" := JStr "12|Smith"]} in
  let jones : object := {["congressionalOffice" := JStr "34|Jones"]} in
  let e := Env "2024-05-01T10:00:00.000Z" 0 0 in
  let st := {| participants := [smith; ∅; jones]; participantIdCounter := 4 |} in
  Forall office_is_text (participants st)
  ∧ dispatch (FilterByOffice "12") e st = (st, json (BRecords [smith])).
Proof.
  intros smith jones e st.
  assert (H : Forall office_is_text (participants st)).
  { each_item; first [ by left | right; eexists; reflexivity ]. }
  split; [exact H|].
  destruct (office_filter_finds_substring "1" "2" e st H) as (found & Hd & _).
  rewrite Hd. rewrite dispatch_FilterByOffice in Hd. injection Hd as <-.
  reflexivity.
Defined.

(** The office filter answers 500 with the fixed error body, the
    store staying as it was, as soon as some record's
    [congressionalOffice] is a number or a boolean, values without an
    [includes] method; it answers 200 when every record's field is
    text, an array, null or absent. *)
Theorem office_filter_fails_on_number_or_boolean c t e st :
  (Exists (fun p => no_includes (get p "congressionalOffice")) (participants st) →
   dispatch (FilterByOffice (String c t)) e st = (st, error_response))
  ∧ (Forall (fun p => can_include (get p "congressionalOffice")) (participants st) →
     ∃ found,
       dispatch (FilterByOffice (String c t)) e st = (st, json (BRecords found))).
Proof.
  rewrite dispatch_FilterByOffice. split.
  - intros Hbad.
    assert (array_filter (office_includes (String c t)) (participants st) = None)
      as ->; [|done].
    apply array_filter_None. eapply Exists_impl; [exact Hbad|]. intros p.
    unfold office_includes, no_includes.
    by destruct (get p "congressionalOffice") as [[| | | |]|].
  - intros Hok.
    destruct (array_filter _ _) as [found|] eqn:Hf; [by exists found|].
    apply array_filter_None, Exists_exists in Hf as (p & Hp & Hnone).
    rewrite Forall_forall in Hok. specialize (Hok p Hp).
    unfold office_includes, can_include in *.
    by destruct (get p "congressionalOffice") as [[| | | |]|].
Qed.

Lemma office_filter_fails_on_number_or_boolean_witness :
  let e := Env "2024-05-01T10:00:00.000Z" 0 0 in
  let bad := {| participants := [∅; {["congressionalOffice" := JNum 12]}];
                participantIdCounter := 3 |} in
  let good := {| participants := [∅; {["congressionalOffice" := JArr [JStr "12"]]}];
                 participantIdCounter := 3 |} in
  Exists (fun p => no_includes (get p "congressionalOffice")) (participants bad)
  ∧ dispatch (FilterByOffice "12") e bad = (bad, error_response)
  ∧ Forall (fun p => can_include (get p "congressionalOffice")) (participants good)
  ∧ status (snd (dispatch (FilterByOffice "12") e good)) = 200.
Proof.
  intros e bad good.
  assert (H : Exists (fun p => no_includes (get p "congressionalOffice"))
                     (participants bad))
    by (apply Exists_cons_tl, Exists_cons_hd; exact I).
  assert (Hg : Forall (fun p => can_include (get p "congressionalOffice"))
                      (participants good))
    by (each_item; exact I).
  split_and!; [exact H| |exact Hg|].
  - exact (proj1 (office_filter_fails_on_number_or_boolean "1" "2" e bad) H).
  - destruct (proj2 (office_filter_fails_on_number_or_boolean "1" "2" e good) Hg)
      as [found ->]. reflexivity.
Defined.

(** GET /api/participants/profile/:profile always answers 200, with
    the records whose [audienceProfile] is a string equal to the given
    one, in collection order; a missing or non-string field never
    matches. *)
Theorem profile_filter_finds_equal c t e st :
  ∃ found,
    dispatch (FilterByProfile (String c t)) e st = (st, json (BRecords found))
    ∧ sublist found (participants st)
    ∧ ∀ p, p ∈ found ↔
           p ∈ participants st
           ∧ get p "audienceProfile" = Some (JStr (String c t)).
Proof.
  eexists. split_and!; [apply dispatch_FilterByProfile|apply filter_sublist|].
  intros p. rewrite list_elem_of_In, filter_In, <- list_elem_of_In.
  unfold profile_is.
  destruct (get p "audienceProfile") as [[| | |s|]|];
    try (split; [by intros [_ ?]|by intros [_ ?]]).
  rewrite String.eqb_eq. split; intros [? H]; (split; [done|congruence]).
Qed.

(** ** Statistics: failure and bounds *)

Lemma office_piece_None i p :
  office_piece i p = None ↔ no_split (get p "congressionalOffice").
Proof.
  unfold office_piece, no_split.
  by destruct (get p "congressionalOffice") as [[| | | |]|].
Qed.

(** GET /api/statistics answers 500 with the fixed error body as
    soon as some record's [congressionalOffice] is a number, a boolean
    or an array, values without a [split] method: one such record
    disables the statistics of the whole store.  It answers 200 when
    every record's field is text, null or absent. *)
Theorem statistics_fail_on_office_without_split e st :
  (Exists (fun p => no_split (get p "congressionalOffice")) (participants st) →
   dispatch GetStatistics e st = (st, error_response))
  ∧ (Forall (fun p => can_split (get p "congressionalOffice")) (participants st) →
     ∃ s, dispatch GetStatistics e st = (st, json (BStats s))).
Proof.
  rewrite dispatch_GetStatistics. unfold get_statistics. cbn [snd]. split.
  - intros Hbad.
    assert (mapM (office_piece 0) (participants st) = None) as ->; [|done].
    apply mapM_None. eapply Exists_impl; [exact Hbad|]. intros p.
    apply office_piece_None.
  - intros Hok.
    destruct (mapM (office_piece 0) (participants st)) as [keys|] eqn:Hk;
      [by eexists|].
    apply mapM_None, Exists_exists in Hk as (p & Hp & Hnone).
    rewrite Forall_forall in Hok. specialize (Hok p Hp).
    apply office_piece_None in Hnone. unfold no_split, can_split in *.
    by destruct (get p "congressionalOffice") as [[| | | |]|].
Qed.

Lemma statistics_fail_on_office_without_split_witness :
  let e := Env "2024-05-01T10:00:00.000Z" 0 0 in
  let smith : object := {["congressionalOffice" := JStr "12|Smith"]} in
  let bad := {| participants := [smith; {["congressionalOffice" := JArr [JStr "12"]]}];
                participantIdCounter := 3 |} in
  let good := {| participants := [smith; {["congressionalOffice" := JNull]}; ∅];
                 participantIdCounter := 4 |} in
  Exists (fun p => no_split (get p "congressionalOffice")) (participants bad)
  ∧ dispatch GetStatistics e bad = (bad, error_response)
  ∧ Forall (fun p => can_split (get p "congressionalOffice")) (participants good)
  ∧ status (snd (dispatch GetStatistics e good)) = 200.
Proof.
  intros e smith bad good.
  assert (H : Exists (fun p => no_split (get p "congressionalOffice"))
                     (participants bad))
    by (apply Exists_cons_tl, Exists_cons_hd; exact I).
  assert (Hg : Forall (fun p => can_split (get p "congressionalOffice"))
                      (participants good))
    by (each_item; exact I).
  split_and!; [exact H| |exact Hg|].
  - exact (proj1 (statistics_fail_on_office_without_split e bad) H).
  - destruct (proj2 (statistics_fail_on_office_without_split e good) Hg)
      as [s ->]. reflexivity.
Defined.

Lemma new_Set_length {A} `{EqDecision A} (values : list A) :
  (length (new_Set values) ≤ length values)%nat
  ∧ (new_Set values = [] ↔ values = []).
Proof.
  destruct (new_Set_spec values) as [Hnd Hin]. split.
  - apply submseteq_length, NoDup_submseteq; [done|]. intros x. by rewrite Hin.
  - split.
    + intros Hnil. destruct values as [|x values]; [done|].
      assert (x ∈ new_Set (x :: values)) as Hx by (apply Hin; by left).
      rewrite Hnil in Hx. by apply elem_of_nil in Hx.
    + by intros ->.
Qed.

Lemma traits_selected_nonneg p : 0 ≤ traits_selected p.
Proof.
  unfold traits_selected.
  destruct (get p "selectedTraits") as [[| | | |]|]; lia.
Qed.

Lemma totalTraits_nonneg ps : 0 ≤ totalTraits ps.
Proof.
  induction ps as [|p ps IH]; [done|].
  rewrite totalTraits_cons. pose proof (traits_selected_nonneg p). lia.
Qed.

Lemma totalTraits_bound ps m :
  Forall (fun p => traits_selected p ≤ m) ps →
  totalTraits ps ≤ m * Z.of_nat (length ps).
Proof.
  induction 1 as [|p ps Hp _ IH]; [cbn; lia|].
  rewrite totalTraits_cons. cbn [length]. lia.
Qed.

Lemma Math_round_between (a b : Z) (x : Q) :
  Qle (inject_Z a) x → Qle x (inject_Z b) → a ≤ Math_round x ≤ b.
Proof.
  intros Ha Hb. destruct (Math_round_nearest x) as [H1 H2].
  assert (Qlt (inject_Z a) (Qplus (inject_Z (Math_round x)) 1)) as Hlo by lra.
  assert (Qlt (inject_Z (Math_round x)) (Qplus (inject_Z b) 1)) as Hhi by lra.
  change 1%Q with (inject_Z 1) in Hlo, Hhi.
  rewrite <- inject_Z_plus, <- Zlt_Qlt in Hlo, Hhi. lia.
Qed.

Lemma mean_between (total n lo hi : Z) :
  0 < n → lo * n ≤ total ≤ hi * n →
  Qle (inject_Z lo) (Qdiv (inject_Z total) (inject_Z n))
  ∧ Qle (Qdiv (inject_Z total) (inject_Z n)) (inject_Z hi).
Proof.
  intros Hn [Hlo Hhi].
  assert (Qlt 0 (inject_Z n)) as Hq
    by (change (Qlt (inject_Z 0) (inject_Z n)); by rewrite <- Zlt_Qlt).
  split.
  - apply Qle_shift_div_l; [done|].
    rewrite <- inject_Z_mult, <- Zle_Qle. done.
  - apply Qle_shift_div_r; [done|].
    rewrite <- inject_Z_mult, <- Zle_Qle. done.
Qed.

(** On a store of the specification's data model
    ([congressionalOffice] text or absent, [selectedTraits] a sequence
    or absent) the statistics answer 200: [totalParticipants] is the
    number of records, [completionRate] is 100 whatever the data,
    [lastUpdated] is the clock, [uniqueOffices] is at most
    [totalParticipants] and is 0 only for the empty store, and
    [avgTraitsSelected] lies between 0 and the largest [selectedTraits]
    length of a record. *)
Theorem statistics_totals_and_bounds e st (m : nat) :
  Forall office_is_text (participants st) →
  Forall traits_are_sequence (participants st) →
  Forall (fun p => (sequence_length (get p "selectedTraits") ≤ m)%nat)
         (participants st) →
  ∃ s,
    dispatch GetStatistics e st = (st, json (BStats s))
    ∧ totalParticipants s = length (participants st)
    ∧ completionRate s = 100
    ∧ lastUpdated s = iso_now e
    ∧ (uniqueOffices s ≤ totalParticipants s)%nat
    ∧ (uniqueOffices s = 0%nat ↔ participants st = [])
    ∧ 0 ≤ avgTraitsSelected s ≤ Z.of_nat m.
Proof.
  intros Htext Hseq Hmax.
  destruct (office_keys_total _ Htext) as (keys & Hkeys & _).
  assert (Hm : Forall (fun p => traits_selected p ≤ Z.of_nat m) (participants st)).
  { rewrite Forall_forall in *. intros p Hp.
    rewrite (traits_selected_sequence p (Hseq p Hp)).
    specialize (Hmax p Hp). lia. }
  pose proof (length_mapM _ _ _ Hkeys) as Hlen.
  destruct (new_Set_length keys) as [Hle Hnil].
  rewrite dispatch_GetStatistics. unfold get_statistics. cbn [snd].
  rewrite Hkeys. cbn [mbind option_bind default].
  eexists. split; [reflexivity|].
  cbn [totalParticipants completionRate lastUpdated uniqueOffices
       avgTraitsSelected].
  assert (Havg : (0 < length (participants st))%nat →
                 0 ≤ Math_round (Qdiv (inject_Z (totalTraits (participants st)))
                                      (inject_Z (Z.of_nat (length (participants st)))))
                 ≤ Z.of_nat m).
  { intros Hpos.
    pose proof (totalTraits_nonneg (participants st)) as H0.
    pose proof (totalTraits_bound _ _ Hm) as H1.
    destruct (mean_between (totalTraits (participants st))
                (Z.of_nat (length (participants st))) 0 (Z.of_nat m)) as [Hlo Hhi];
      [lia|lia|].
    by apply Math_round_between. }
  split_and!; [done|done|done|lia| | |].
  - rewrite length_zero_iff_nil, Hnil. split.
    + intros Hk. rewrite Hk in Hlen. by destruct (participants st).
    + intros Hp. rewrite Hp in Hlen. by destruct keys.
  - destruct (Nat.ltb_spec 0 (length (participants st))) as [Hpos|_];
      [by apply Havg|lia].
  - destruct (Nat.ltb_spec 0 (length (participants st))) as [Hpos|_];
      [by apply Havg|lia].
Qed.

Lemma statistics_totals_and_bounds_witness :
  let e := Env "2024-05-01T10:00:00.000Z" 0 0 in
  let st := {| participants :=
                 [ {["selectedTraits" := JArr [JStr "x"; JStr "y"; JStr "z"]]};
                   {["congressionalOffice" := JStr "12|Smith"]} ];
               participantIdCounter := 3 |} in
  Forall office_is_text (participants st)
  ∧ Forall traits_are_sequence (participants st)
  ∧ Forall (fun p => (sequence_length (get p "selectedTraits") ≤ 3)%nat)
           (participants st)
  ∧ ∃ s, dispatch GetStatistics e st = (st, json (BStats s))
         ∧ totalParticipants s = 2%nat
         ∧ 0 ≤ avgTraitsSelected s ≤ 3.
Proof.
  intros e st.
  assert (H1 : Forall office_is_text (participants st))
    by (each_item; first [ by left | right; eexists; reflexivity ]).
  assert (H2 : Forall traits_are_sequence (participants st))
    by (each_item; first [ by left | right; eexists; reflexivity ]).
  assert (H3 : Forall (fun p => (sequence_length (get p "selectedTraits") ≤ 3)%nat)
                      (participants st))
    by (each_item; vm_compute; lia).
  split_and!; [exact H1|exact H2|exact H3|].
  destruct (statistics_totals_and_bounds e st 3 H1 H2 H3)
    as (s & Hs & Ht & _ & _ & _ & _ & Havg).
  exists s. split; [exact Hs|]. split; [exact Ht|exact Havg].
Defined.

(** ** Distribution cells *)

Lemma tally_plain dist k n :
  plain_key k →
  counts (dist !! k) n → counts (tally dist k !! k) (n + 1).
Proof.
  intros [Hproto Hfun] [[H ->] | [H Hn]]; unfold tally; rewrite H.
  - right. destruct (String.eqb_spec k "__proto__") as [|_]; [done|].
    rewrite bool_decide_eq_false_2 by done.
    by rewrite lookup_insert_eq.
  - right. rewrite lookup_insert_eq. cbn [truthy plus_one].
    destruct (Z.eqb_spec n 0) as [->|_]; [lia|]. split; [done|lia].
Qed.

Lemma foldl_tally_plain k keys dist n :
  plain_key k →
  counts (dist !! k) n →
  counts (foldl tally dist keys !! k)
         (n + Z.of_nat (length (List.filter (fun x => String.eqb x k) keys))).
Proof.
  intros Hk. revert dist n. induction keys as [|x keys IH]; intros dist n H.
  - cbn. by rewrite Z.add_0_r.
  - cbn [foldl List.filter]. destruct (String.eqb_spec x k) as [->|Hne].
    + cbn [length]. rewrite Nat2Z.inj_succ.
      replace (n + Z.succ (Z.of_nat (length (List.filter (fun x => String.eqb x k) keys))))
        with ((n + 1) + Z.of_nat (length (List.filter (fun x => String.eqb x k) keys)))
        by lia.
      apply IH. by apply tally_plain.
    + apply IH. by rewrite tally_other.
Qed.

Lemma distribution_counts_keys field k ps :
  plain_key k →
  distribution field ps !! k
  = if key_count field k ps =? 0 then None
    else Some (JNum (key_count field k ps)).
Proof.
  intros Hk. rewrite distribution_keys. unfold key_count.
  pose proof (foldl_tally_plain k (tally_keys field ps) ∅ 0 Hk) as H.
  rewrite Z.add_0_l in H.
  destruct H as [[-> ->] | [-> Hpos]]; [by left|done|].
  by destruct (Z.eqb_spec (Z.of_nat (length (List.filter (fun x => String.eqb x k)
                                                      (tally_keys field ps)))) 0);
    [lia|].
Qed.

Lemma key_count_labels field k ps :
  Forall (fun p => is_label (get p field)) ps →
  key_count field k ps = label_count field k ps.
Proof.
  unfold key_count, label_count, tally_keys. intros H. f_equal.
  induction H as [|p ps Hp _ IH]; [done|].
  cbn [map List.filter].
  assert (String.eqb (render (get p field)) k = holds_label field k p) as ->.
  { unfold holds_label. destruct Hp as [-> | [s ->]]; cbn [render to_string].
    - apply String.eqb_sym.
    - done. }
  destruct (holds_label field k p); cbn [length]; by rewrite IH.
Qed.

(** When every record's field is a string or absent, and [k] is not
    the name of a member of [Object.prototype]: the cell [k] of the
    distribution is absent when no record is counted under [k], and
    otherwise holds the number of records whose field is the string
    [k], the records without the field being counted under
    "undefined".  A cell is a positive count, never 0. *)
Theorem distribution_counts_records field k ps :
  Forall (fun p => is_label (get p field)) ps →
  plain_key k →
  distribution field ps !! k
  = if label_count field k ps =? 0 then None
    else Some (JNum (label_count field k ps)).
Proof.
  intros Hl Hk. rewrite <- (key_count_labels field k ps Hl).
  by apply distribution_counts_keys.
Qed.

Lemma distribution_counts_records_witness :
  let ps : list object :=
    [ {["audienceProfile" := JStr "p1"]}; {["audienceProfile" := JStr "p2"]};
      {["audienceProfile" := JStr "p1"]}; ∅ ] in
  Forall (fun p => is_label (get p "audienceProfile")) ps
  ∧ plain_key "p1"
  ∧ distribution "audienceProfile" ps !! "p1" = Some (JNum 2)
  ∧ distribution "audienceProfile" ps !! "undefined" = Some (JNum 1)
  ∧ distribution "audienceProfile" ps !! "p3" = None.
Proof.
  intros ps.
  assert (Hl : Forall (fun p => is_label (get p "audienceProfile")) ps)
    by (each_item; first [ by left | right; eexists; reflexivity ]).
  assert (Hk : ∀ k, bool_decide (k ≠ "__proto__" ∧ k ∉ prototype_functions) = true
                    → plain_key k)
    by (intros k H; exact (bool_decide_eq_true_1 _ H)).
  split; [exact Hl|]. split; [by apply Hk|]. split_and!.
  - exact (distribution_counts_records "audienceProfile" "p1" ps Hl (Hk "p1" eq_refl)).
  - exact (distribution_counts_records "audienceProfile" "undefined" ps Hl
             (Hk "undefined" eq_refl)).
  - exact (distribution_counts_records "audienceProfile" "p3" ps Hl (Hk "p3" eq_refl)).
Defined.

Lemma tally_proto dist k :
  dist !! "__proto__" = None → tally dist k !! "__proto__" = None.
Proof.
  intros H. destruct (decide (k = "__proto__")) as [->|Hne].
  - unfold tally. by rewrite H.
  - by rewrite tally_other.
Qed.

(** A record whose field is the text [__proto__] is tallied nowhere:
    no distribution has a cell of that name, whatever the records. *)
Theorem distribution_never_counts_proto field ps :
  distribution field ps !! "__proto__" = None.
Proof.
  rewrite distribution_keys.
  generalize (tally_keys field ps). intros keys.
  assert (H : ∀ dist : gmap string value,
             dist !! "__proto__" = None →
             foldl tally dist keys !! "__proto__" = None).
  { induction keys as [|k keys IH]; intros dist Hd; [done|].
    cbn [foldl]. by apply IH, tally_proto. }
  by apply H.
Qed.

(** ** The CSV export *)

Lemma office_None p :
  office p = None ↔ no_split (get p "congressionalOffice").
Proof.
  unfold office. rewrite <- (office_piece_None 1).
  by destruct (office_piece 1 p).
Qed.

Lemma joined_None sep v : joined sep v = None ↔ ¬ joinable v.
Proof.
  unfold joined, joinable. destruct (truthy v) eqn:Ht.
  - destruct v as [[| | | |l]|]; split; try done.
    all: try (intros _ [?|[l' ?]]; done).
    intros H. exfalso. apply H. right. by exists l.
  - split; [done|]. intros H. exfalso. apply H. by left.
Qed.

Lemma joined_Some sep v x : joined sep v = Some x → joinable v.
Proof.
  unfold joined, joinable. destruct (truthy v); [|by left].
  destruct v as [[| | | |l]|]; try done. right. by exists l.
Qed.

Lemma csv_row_None p : csv_row p = None ↔ ¬ exportable p.
Proof.
  unfold csv_row, exportable.
  pose proof (office_None p) as Ho.
  pose proof (joined_None ", " (get p "adjectives")) as Ha.
  pose proof (joined_None "; " (get p "priorities")) as Hp.
  pose proof (joined_None ", " (get p "selectedTraits")) as Hs.
  destruct (office p) as [o|]; cbn [mbind option_bind].
  2:{ split; [|done]. intros _ [H _]. apply H, Ho. done. }
  destruct (joined ", " (get p "adjectives")) as [a|] eqn:Ea;
    cbn [mbind option_bind].
  2:{ split; [|done]. intros _ (_ & H & _). by apply Ha. }
  destruct (joined "; " (get p "priorities")) as [b|] eqn:Eb;
    cbn [mbind option_bind].
  2:{ split; [|done]. intros _ (_ & _ & H & _). by apply Hp. }
  destruct (joined ", " (get p "selectedTraits")) as [c|] eqn:Ec;
    cbn [mbind option_bind].
  2:{ split; [|done]. intros _ (_ & _ & _ & H). by apply Hs. }
  split; [done|]. intros H. exfalso. apply H. split_and!.
  - intros Hn. apply Ho in Hn. done.
  - by eapply joined_Some.
  - by eapply joined_Some.
  - by eapply joined_Some.
Qed.

Lemma dispatch_ExportCsv e st :
  dispatch ExportCsv e st
  = (st, default error_response
           (csv ← csv_text (participants st);
            Some (json (BCsv (csv_filename e) csv)))).
Proof. reflexivity. Qed.

Lemma append_assoc (a b c : string) : (a ++ b) ++ c = a ++ b ++ c.
Proof.
  induction a as [|x a IH]; [done|].
  change (String x ((a ++ b) ++ c) = String x (a ++ b ++ c)). by rewrite IH.
Qed.

Lemma concat_snoc rows row :
  String.concat "" (rows ++ [row])%list = String.concat "" rows ++ row.
Proof.
  induction rows as [|r rows IH]; [reflexivity|].
  destruct rows as [|r' rows].
  - reflexivity.
  - change (String.concat "" ((r :: r' :: rows) ++ [row])%list)
      with (r ++ "" ++ String.concat "" ((r' :: rows) ++ [row])%list).
    rewrite IH.
    change (String.concat "" (r :: r' :: rows))
      with (r ++ "" ++ String.concat "" (r' :: rows)).
    change ("" ++ String.concat "" (r' :: rows) ++ row)
      with (String.concat "" (r' :: rows) ++ row).
    change ("" ++ String.concat "" (r' :: rows))
      with (String.concat "" (r' :: rows)).
    by rewrite append_assoc.
Qed.

Lemma csv_text_snoc ps p text row :
  csv_text ps = Some text → csv_row p = Some row →
  csv_text (ps ++ [p]) = Some (text ++ row).
Proof.
  unfold csv_text. intros Ht Hr.
  destruct (mapM csv_row ps) as [rows|] eqn:Hrows; [|done].
  cbn [mbind option_bind] in Ht. injection Ht as <-.
  assert (mapM csv_row (ps ++ [p]) = Some (rows ++ [row])%list) as ->.
  { apply mapM_Some. apply Forall2_app; [by apply mapM_Some|].
    by constructor. }
  cbn [mbind option_bind]. by rewrite concat_snoc, append_assoc.
Qed.

(** The export of a store is the export of the store without its last
    record followed by that record's row: each created record adds one
    row at the end and changes no earlier text.  The export of the
    empty store is the header row alone. *)
Theorem export_grows_by_one_row e e1 st p name text row :
  dispatch ExportCsv e st = (st, json (BCsv name text)) →
  csv_row p = Some row →
  let st1 := {| participants := (participants st ++ [p])%list;
                participantIdCounter := participantIdCounter st + 1 |} in
  dispatch ExportCsv e1 st1 = (st1, json (BCsv (csv_filename e1) (text ++ row)))
  ∧ dispatch ExportCsv e initial_store
    = (initial_store, json (BCsv (csv_filename e) csv_header)).
Proof.
  intros Hd Hrow st1. subst st1. split; [|reflexivity].
  rewrite dispatch_ExportCsv in *. cbn [participants].
  destruct (csv_text (participants st)) as [t|] eqn:Ht; [|done].
  cbn [mbind option_bind default] in Hd. injection Hd as _ <-.
  by rewrite (csv_text_snoc _ _ _ _ Ht Hrow).
Qed.

Lemma export_grows_by_one_row_witness :
  let e := Env "2024-05-01T10:00:00.000Z" 1714557600000 0 in
  let p := new_participant 1 {["name" := JStr "A"]} (iso_now e) in
  let row := "1," ++ quoted "A" ++ "," ++ quoted "Unknown" ++ ","
             ++ quoted "undefined" ++ "," ++ quoted "undefined" ++ ","
             ++ quoted "" ++ "," ++ quoted "" ++ "," ++ quoted "" ++ ","
             ++ quoted "2024-05-01T10:00:00.000Z" ++ newline in
  csv_row p = Some row
  ∧ dispatch ExportCsv e (fst (dispatch (Insert {["name" := JStr "A"]}) e initial_store))
    = (fst (dispatch (Insert {["name" := JStr "A"]}) e initial_store),
       json (BCsv "participants-1714557600000.csv" (csv_header ++ row))).
Proof.
  intros e p row.
  assert (Hrow : csv_row p = Some row) by reflexivity.
  split; [exact Hrow|].
  exact (proj1 (export_grows_by_one_row e e initial_store p
                  (csv_filename e) csv_header row eq_refl Hrow)).
Defined.

(** The export answers 500 with the fixed error body exactly when
    some record has a [congressionalOffice] without [split] (a number,
    a boolean, an array) or a truthy [adjectives], [priorities] or
    [selectedTraits] that is not an array (a non-empty string, true, a
    number other than 0); when no record is like that it answers 200
    with the header and one row per record. *)
Theorem export_fails_on_unexportable_record e st :
  (dispatch ExportCsv e st = (st, error_response)
   ↔ Exists (fun p => ¬ exportable p) (participants st))
  ∧ (Forall exportable (participants st) →
     ∃ rows,
       Forall2 (fun p row => csv_row p = Some row) (participants st) rows
       ∧ dispatch ExportCsv e st
         = (st, json (BCsv (csv_filename e)
                           (csv_header ++ String.concat "" rows)))).
Proof.
  rewrite dispatch_ExportCsv. unfold csv_text. split.
  - rewrite <- (Exists_equiv _ _ (participants st) csv_row_None), <- mapM_None.
    destruct (mapM csv_row (participants st)) as [rows|]; cbn; split; done.
  - intros Hall.
    destruct (mapM csv_row (participants st)) as [rows|] eqn:Hrows.
    + exists rows. split; [by apply mapM_Some|done].
    + apply mapM_None, Exists_exists in Hrows as (p & Hp & Hnone).
      rewrite Forall_forall in Hall. apply csv_row_None in Hnone.
      by destruct Hnone; apply Hall.
Qed.

Lemma export_fails_on_unexportable_record_witness :
  let e := Env "2024-05-01T10:00:00.000Z" 0 0 in
  let good : object := {["selectedTraits" := JArr [JStr "x"]]} in
  let bad : object := {["priorities" := JStr "jobs"]} in
  Forall exportable [good]
  ∧ status (snd (dispatch ExportCsv e
                   {| participants := [good]; participantIdCounter := 2 |})) = 200
  ∧ dispatch ExportCsv e {| participants := [good; bad]; participantIdCounter := 3 |}
    = ({| participants := [good; bad]; participantIdCounter := 3 |}, error_response).
Proof.
  intros e good bad.
  assert (Hgood : exportable good).
  { split_and!; [by intros []|by left|by left|right; by eexists]. }
  assert (H : Forall exportable [good]) by (by constructor).
  split; [exact H|]. split.
  - destruct (proj2 (export_fails_on_unexportable_record e
             {| participants := [good]; participantIdCounter := 2 |}) H)
      as (rows & _ & ->). reflexivity.
  - apply (proj1 (export_fails_on_unexportable_record e
             {| participants := [good; bad]; participantIdCounter := 3 |})).
    apply Exists_cons_tl, Exists_cons_hd.
    intros (_ & _ & [Hf | [l Hl]] & _); discriminate.
Defined.

Lemma string_length_app (a b : string) :
  String.length (a ++ b) = (String.length a + String.length b)%nat.
Proof.
  induction a as [|c a IH]; [done|].
  change (S (String.length (a ++ b)) = S (String.length a + String.length b)).
  by rewrite IH.
Qed.

Lemma append_cancel_r (a b s : string) : a ++ s = b ++ s → a = b.
Proof.
  revert b. induction a as [|c a IH]; intros [|d b] H.
  - done.
  - apply (f_equal String.length) in H.
    rewrite !string_length_app in H. cbn [String.length] in H. lia.
  - apply (f_equal String.length) in H.
    rewrite !string_length_app in H. cbn [String.length] in H. lia.
  - injection H as -> H. f_equal. by apply IH.
Qed.

Lemma csv_filename_inj e1 e2 :
  csv_filename e1 = csv_filename e2 → epoch_ms e1 = epoch_ms e2.
Proof.
  unfold csv_filename. intros H.
  apply (inj (String.append "participants-")) in H.
  apply append_cancel_r in H. by apply number_to_string_inj.
Qed.

(** Two exports made at different clock readings suggest different
    file names, whatever the stores: the name is
    [participants-<epoch ms>.csv], and the decimal text of the clock
    determines the clock. *)
Theorem export_filenames_differ e1 e2 st1 st2 name1 text1 name2 text2 :
  dispatch ExportCsv e1 st1 = (st1, json (BCsv name1 text1)) →
  dispatch ExportCsv e2 st2 = (st2, json (BCsv name2 text2)) →
  epoch_ms e1 ≠ epoch_ms e2 →
  name1 ≠ name2.
Proof.
  rewrite !dispatch_ExportCsv. intros H1 H2 Hne Heq.
  destruct (csv_text (participants st1)); [|done].
  destruct (csv_text (participants st2)); [|done].
  cbn in H1, H2. injection H1 as <- _. injection H2 as <- _.
  by apply csv_filename_inj in Heq.
Qed.

Lemma export_filenames_differ_witness :
  let e1 := Env "2024-05-01T10:00:00.000Z" 1714557600000 0 in
  let e2 := Env "2024-05-01T10:00:00.001Z" 1714557600001 0 in
  epoch_ms e1 ≠ epoch_ms e2
  ∧ csv_filename e1 ≠ csv_filename e2.
Proof.
  intros e1 e2.
  assert (H : epoch_ms e1 ≠ epoch_ms e2) by done.
  split; [exact H|].
  exact (export_filenames_differ e1 e2 initial_store initial_store
           (csv_filename e1) csv_header (csv_filename e2) csv_header
           eq_refl eq_refl H).
Defined.
